(** * Stream Overlay SaaS API: a shallow embedding of [main.py] and [schemas.py]

    The handlers of [main.py] are embedded as functions over an explicit
    document store.  Every handler takes the store [db] it runs against and
    returns its outcome together with the store it leaves behind.

    - A BSON value is a [value]; a stored document is a [document]: its
      [_id] plus a finite map of its other fields.
    - A collection is the list of its documents in insertion order, and the
      database [db] maps collection names to collections ([db["user"]] is
      [db !!! "user"]).
    - An exception raised by a handler is an [outcome]: [HTTPException] with
      its status code and detail, or [Raised] for any other exception.
    - The results of [secrets.token_hex], [secrets.token_urlsafe] and the
      identifier the store assigns to an inserted document are arguments of
      the handlers that use them.
    - A [$set] whose keys all name top-level fields is computed.  What the
      store does with any other [$set] (a dotted path, an operator, no key
      at all) is [path_semantics]: an argument of [update_widget], of which
      only what the store guarantees for every update is known. *)

From Stdlib Require Import ZArith Ascii Floats.SpecFloat.
From stdpp Require Import base option list strings gmap.

Set Warnings "-register-all".
Local Open Scope string_scope.
Local Open Scope Z_scope.
Local Open Scope list_scope.

(** ** Values and documents *)

(** The values a document holds.  [VInt] is a Python integer, of any size;
    [VFloat] a double, by sign, mantissa and exponent; [VOid] a BSON
    ObjectId, given by its hexadecimal text; [VDate] a datetime, in
    milliseconds since the epoch; [VDict] an embedded document, an ordered
    list of members as BSON has it. *)
Inductive value : Type :=
  | VNone
  | VBool (b : bool)
  | VInt (z : Z)
  | VFloat (f : spec_float)
  | VStr (s : string)
  | VOid (hex : string)
  | VDate (ms : Z)
  | VList (l : list value)
  | VDict (m : list (string * value)).

(** The integer a finite double stands for is [m * 2 ^ e], signed. *)
Definition signed (s : bool) (m : positive) : Z :=
  if s then Z.neg m else Z.pos m.

(** A double and an integer are the same number. *)
Definition float_eq_int (f : spec_float) (z : Z) : bool :=
  match f with
  | S754_zero _ => Z.eqb z 0
  | S754_finite s m e =>
      if Z.leb 0 e
      then Z.eqb (signed s m * 2 ^ e) z
      else Z.eqb (signed s m) (z * 2 ^ (- e))
  | S754_infinity _ | S754_nan => false
  end.

(** Two doubles are the same number; the store takes NaN as equal to
    itself, and the two zeros as equal. *)
Definition float_eqb (f g : spec_float) : bool :=
  match f, g with
  | S754_zero _, S754_zero _ => true
  | S754_infinity s, S754_infinity t => Bool.eqb s t
  | S754_nan, S754_nan => true
  | S754_finite s m e, S754_finite t n d =>
      if Z.leb e d
      then Z.eqb (signed s m) (signed t n * 2 ^ (d - e))
      else Z.eqb (signed s m * 2 ^ (e - d)) (signed t n)
  | _, _ => false
  end.

(** Equality of values as the store compares them: numbers by what they
    stand for, whatever their type, everything else type by type. *)
Fixpoint value_eqb (a b : value) {struct a} : bool :=
  match a, b with
  | VNone, VNone => true
  | VBool x, VBool y => Bool.eqb x y
  | VInt x, VInt y => Z.eqb x y
  | VFloat x, VFloat y => float_eqb x y
  | VInt x, VFloat y => float_eq_int y x
  | VFloat x, VInt y => float_eq_int x y
  | VStr x, VStr y => String.eqb x y
  | VOid x, VOid y => String.eqb x y
  | VDate x, VDate y => Z.eqb x y
  | VList xs, VList ys =>
      (fix go (xs ys : list value) {struct xs} : bool :=
         match xs, ys with
         | [], [] => true
         | x :: xs', y :: ys' => value_eqb x y && go xs' ys'
         | _, _ => false
         end) xs ys
  | VDict xs, VDict ys =>
      (fix go (xs ys : list (string * value)) {struct xs} : bool :=
         match xs, ys with
         | [], [] => true
         | (k, x) :: xs', (k', y) :: ys' =>
             String.eqb k k' && value_eqb x y && go xs' ys'
         | _, _ => false
         end) xs ys
  | _, _ => false
  end.

(** Python's [bool(v)]. *)
Definition truthy (v : value) : bool :=
  match v with
  | VNone => false
  | VBool b => b
  | VInt z => negb (Z.eqb z 0)
  | VFloat f => match f with S754_zero _ => false | _ => true end
  | VStr s => negb (String.eqb s "")
  | VOid _ => true
  | VDate _ => true
  | VList l => match l with [] => false | _ => true end
  | VDict m => match m with [] => false | _ => true end
  end.

(** A key BSON can hold: one without a NUL character. *)
Definition key_encodable (k : string) : bool :=
  forallb (λ c, negb (Ascii.eqb c Ascii.zero)) (String.list_ascii_of_string k).

(** What pymongo can encode as BSON: integers of at most 64 bits, and
    embedded documents whose keys it can hold.  On anything else the
    driver raises before the store is reached. *)
Fixpoint encodable (v : value) : bool :=
  match v with
  | VInt z => Z.leb (- 2 ^ 63) z && Z.ltb z (2 ^ 63)
  | VList l => forallb encodable l
  | VDict m => forallb (λ kv, key_encodable kv.1 && encodable kv.2) m
  | _ => true
  end.

(** Python's [v == s] for a string [s]. *)
Definition py_eq_str (v : value) (s : string) : bool :=
  match v with
  | VStr s' => String.eqb s' s
  | _ => false
  end.

(** The [_id] of a stored document: an ObjectId, or a string as the
    handlers' string lookups expect. *)
Inductive ident : Type :=
  | ObjectId (hex : string)
  | StrId (s : string).

#[global] Instance ident_eq_dec : EqDecision ident.
Proof. solve_decision. Defined.

(** [str(_id)]. *)
Definition str_id (i : ident) : string :=
  match i with
  | ObjectId hex => hex
  | StrId s => s
  end.

Definition id_value (i : ident) : value :=
  match i with
  | ObjectId hex => VOid hex
  | StrId s => VStr s
  end.

(** A stored document always carries an [_id]; [doc_fields] holds the
    other fields. *)
Record document : Type := Document {
  doc_id : ident;
  doc_fields : gmap string value
}.

(** [d.get(k)], with [None] for a missing key. *)
Definition get (d : document) (k : string) : option value :=
  if String.eqb k "_id" then Some (id_value (doc_id d)) else doc_fields d !! k.

(** [d.get(k)] as the Python value it returns. *)
Definition get_or_none (d : document) (k : string) : value :=
  default VNone (get d k).

(** The dictionary a listing returns for a document:
    [d["id"] = str(d.pop("_id"))]. *)
Definition pop_id (d : document) : gmap string value :=
  <["id" := VStr (str_id (doc_id d))]> (delete "_id" (doc_fields d)).

(** ** The document store *)

(** A query document [{k1: v1, ...}] of equality conditions. *)
Abbreviation query := (list (string * value)).

(** One equality condition against a field: the field equals the value,
    or is an array with such an element; a [null] condition also matches a
    missing field. *)
Definition field_matches (fv : option value) (q : value) : bool :=
  match fv with
  | None => match q with VNone => true | _ => false end
  | Some v =>
      value_eqb v q
      || match v with
         | VList l => existsb (fun x => value_eqb x q) l
         | _ => false
         end
  end.

Definition matches (q : query) (d : document) : bool :=
  forallb (fun c => field_matches (get d c.1) c.2) q.

Abbreviation collection := (list document).

Definition find_one (q : query) (c : collection) : option document :=
  List.find (matches q) c.

Definition find (q : query) (c : collection) : collection :=
  List.filter (matches q) c.

(** [$set] with keys that all name top-level fields: the given fields
    overwrite the document's, field by field.  The store refuses a change
    of [_id]; [None] is that write error. *)
Definition apply_set (upd : gmap string value) (d : document) : option document :=
  match upd !! "_id" with
  | Some v =>
      if value_eqb v (id_value (doc_id d))
      then Some (Document (doc_id d) (delete "_id" upd ∪ doc_fields d))
      else None
  | None => Some (Document (doc_id d) (upd ∪ doc_fields d))
  end.

(** The top-level field a key of [$set] is about: the key itself, or what
    stands before its first dot when it is a path. *)
Fixpoint field_of (k : string) : string :=
  match k with
  | EmptyString => EmptyString
  | String c k' => if Ascii.eqb c "."%char then EmptyString else String c (field_of k')
  end.

(** A key that names a top-level field and nothing else: not empty, no
    path, no operator. *)
Definition plain_key (k : string) : bool :=
  match k with
  | EmptyString => false
  | String c _ => negb (Ascii.eqb c "$"%char) && String.eqb (field_of k) k
  end.

(** A value whose embedded documents, at any depth, have plain keys
    only. *)
Fixpoint storable (v : value) : bool :=
  match v with
  | VList l => forallb storable l
  | VDict m => forallb (λ kv, plain_key kv.1 && storable kv.2) m
  | _ => true
  end.

(** An update with at least one key, all of them plain, for such values. *)
Definition plain_update (upd : gmap string value) : bool :=
  negb (Nat.eqb (size upd) 0)
  && bool_decide (map_Forall (λ k v, plain_key k = true ∧ storable v = true) upd).

(** Whether some key of the update is about the top-level field [f]. *)
Definition touches (f : string) (upd : gmap string value) : bool :=
  negb (bool_decide (map_Forall (λ k _, field_of k ≠ f) upd)).

(** What the store does with a [$set] that is not a plain update: it
    rewrites the document or refuses the update ([None]).  How it reads a
    dotted path or an operator, and whether it accepts an update without
    keys or an embedded key that is not plain, depends on the server; what
    every server keeps is that the
    document stays under its [_id], and that a top-level field none of the
    keys is about is as it was. *)
Record path_semantics : Type := PathSemantics {
  set_paths : gmap string value → document → option document;
  set_paths_id : ∀ upd d d',
    set_paths upd d = Some d' → doc_id d' = doc_id d;
  set_paths_frame : ∀ upd d d' f,
    set_paths upd d = Some d' → touches f upd = false → get d' f = get d f
}.

(** [$set] with any keys. *)
Definition set_document (paths : path_semantics) (upd : gmap string value)
    (d : document) : option document :=
  if plain_update upd then apply_set upd d else set_paths paths upd d.

(** What pymongo can encode of an update: its keys and its values. *)
Definition encodable_update (upd : gmap string value) : bool :=
  bool_decide (map_Forall (λ k v, key_encodable k = true ∧ encodable v = true) upd).

(** [update_one(q, {"$set": ...})] changes the first matching document;
    [set] is the [$set] it applies. *)
Fixpoint update_one (q : query) (set : document → option document)
    (c : collection) : option collection :=
  match c with
  | [] => Some []
  | d :: c' =>
      if matches q d
      then d' ← set d; Some (d' :: c')
      else c'' ← update_one q set c'; Some (d :: c'')
  end.

(** [delete_one(q)] removes the first matching document. *)
Fixpoint delete_one (q : query) (c : collection) : collection :=
  match c with
  | [] => []
  | d :: c' => if matches q d then c' else d :: delete_one q c'
  end.

Abbreviation store := (gmap string collection).

(** How a handler ends. *)
Inductive outcome (A : Type) : Type :=
  | Ok (a : A)
  | HTTPException (status_code : Z) (detail : string)
  | Raised (exc : string).
Arguments Ok {A} a.
Arguments HTTPException {A} status_code detail.
Arguments Raised {A} exc.

(** [a or b] on the results of two lookups: a found document is a
    non-empty dictionary, hence true. *)
Definition or_else {A : Type} (a b : option A) : option A :=
  match a with
  | Some x => Some x
  | None => b
  end.

(** ** Python strings *)

(** [s.replace(old, new)] for a non-empty [old]: the occurrences of [old]
    are replaced from left to right, without overlap.  [skip] counts the
    characters of an occurrence that are still to be dropped. *)
Fixpoint replace_from (old new : string) (skip : nat) (s : string) : string :=
  match s with
  | EmptyString => EmptyString
  | String c s' =>
      match skip with
      | S k => replace_from old new k s'
      | O =>
          if String.prefix old s
          then new +:+ replace_from old new (Nat.pred (String.length old)) s'
          else String c (replace_from old new O s')
      end
  end.

(** With an empty [old], Python puts [new] before every character and at
    the end. *)
Fixpoint intersperse (new s : string) : string :=
  match s with
  | EmptyString => new
  | String c s' => new +:+ String c (intersperse new s')
  end.

Definition replace (s old new : string) : string :=
  match old with
  | EmptyString => intersperse new s
  | _ => replace_from old new O s
  end.

(** The characters [secrets.token_hex] draws from. *)
Definition is_hex_digit (c : Ascii.ascii) : bool :=
  existsb (Ascii.eqb c) (String.list_ascii_of_string "0123456789abcdef").

(** What [secrets.token_hex(nbytes)] can return: two hexadecimal digits
    per byte. *)
Definition is_token_hex (nbytes : nat) (t : string) : bool :=
  Nat.eqb (String.length t) (2 * nbytes)
  && forallb is_hex_digit (String.list_ascii_of_string t).


(** ** Schemas ([schemas.py]) and request payloads ([main.py]) *)

(** [BaseModel.model_dump]: the fields of a model as a dictionary. *)
Class BaseModel (A : Type) := model_dump : A → gmap string value.

Definition opt_str (o : option string) : value :=
  match o with
  | Some s => VStr s
  | None => VNone
  end.

Definition PlanName : list string := ["free"; "pro"].

Definition WidgetType : list string :=
  ["text"; "timer"; "countdown"; "goal"; "image"; "youtube"; "twitch_alert";
   "minigame_trivia"; "minigame_poll"; "leaderboard"].

(** Membership in a [Literal[...]] type. *)
Definition literal (allowed : list string) (s : string) : bool :=
  existsb (String.eqb s) allowed.

Module User.
Record t : Type := make {
  email : string;
  password_hash : option string;
  twitch_user_id : option string;
  role : string;
  locale : string;
  plan : string;
  created_at : value;
  updated_at : value;
  auth_token : option string
}.

(** [User(email=..., password_hash=..., auth_token=...)]: the other
    fields take their defaults. *)
Definition new (email : string) (password_hash auth_token : option string) : t :=
  make email password_hash None "owner" "en" "free" VNone VNone auth_token.

#[global] Instance dump : BaseModel t := λ u,
  {[ "email" := VStr (email u);
     "password_hash" := opt_str (password_hash u);
     "twitch_user_id" := opt_str (twitch_user_id u);
     "role" := VStr (role u);
     "locale" := VStr (locale u);
     "plan" := VStr (plan u);
     "created_at" := created_at u;
     "updated_at" := updated_at u;
     "auth_token" := opt_str (auth_token u) ]}.
End User.

Module Overlay.
Record t : Type := make {
  owner_user_id : string;
  name : string;
  width : Z;
  height : Z;
  secret_token : string;
  created_at : value;
  updated_at : value
}.

Definition new (owner_user_id name : string) (width height : Z)
    (secret_token : string) : t :=
  make owner_user_id name width height secret_token VNone VNone.

#[global] Instance dump : BaseModel t := λ o,
  {[ "owner_user_id" := VStr (owner_user_id o);
     "name" := VStr (name o);
     "width" := VInt (width o);
     "height" := VInt (height o);
     "secret_token" := VStr (secret_token o);
     "created_at" := created_at o;
     "updated_at" := updated_at o ]}.
End Overlay.

Module Widget.
Record t : Type := make {
  overlay_id : string;
  type : string;
  x : Z;
  y : Z;
  width : Z;
  height : Z;
  z_index : Z;
  logic_config : list (string * value);
  cosmetic_skin_id : option string;
  cosmetic_overrides : list (string * value)
}.

#[global] Instance dump : BaseModel t := λ w,
  {[ "overlay_id" := VStr (overlay_id w);
     "type" := VStr (type w);
     "x" := VInt (x w);
     "y" := VInt (y w);
     "width" := VInt (width w);
     "height" := VInt (height w);
     "z_index" := VInt (z_index w);
     "logic_config" := VDict (logic_config w);
     "cosmetic_skin_id" := opt_str (cosmetic_skin_id w);
     "cosmetic_overrides" := VDict (cosmetic_overrides w) ]}.
End Widget.

Module FeatureFlag.
Record t : Type := make {
  feature_key : string;
  plan_name : string;
  allowed : bool
}.
End FeatureFlag.

Module AuthRequest.
Record t : Type := make {
  email : string;
  password : string
}.
End AuthRequest.

Module CreateOverlayRequest.
Record t : Type := make {
  name : string;
  width : Z;
  height : Z
}.
End CreateOverlayRequest.

Module CreateWidgetRequest.
Record t : Type := make {
  overlay_id : string;
  type : string;
  x : Z;
  y : Z;
  width : Z;
  height : Z;
  z_index : Z;
  logic_config : list (string * value);
  cosmetic_skin_id : option string;
  cosmetic_overrides : list (string * value)
}.
End CreateWidgetRequest.

Module UpdateWidgetRequest.
Record t : Type := make {
  widget_id : string;
  updates : gmap string value
}.
End UpdateWidgetRequest.

(** The [Widget] built from the payload's dumped fields: every field of the payload already
    has the type the model wants, except [type], which must be one of the
    [WidgetType] literals; [None] is pydantic's validation error. *)
Definition Widget_of_payload (p : CreateWidgetRequest.t) : option Widget.t :=
  if literal WidgetType (CreateWidgetRequest.type p)
  then Some (Widget.make
               (CreateWidgetRequest.overlay_id p)
               (CreateWidgetRequest.type p)
               (CreateWidgetRequest.x p)
               (CreateWidgetRequest.y p)
               (CreateWidgetRequest.width p)
               (CreateWidgetRequest.height p)
               (CreateWidgetRequest.z_index p)
               (CreateWidgetRequest.logic_config p)
               (CreateWidgetRequest.cosmetic_skin_id p)
               (CreateWidgetRequest.cosmetic_overrides p))
  else None.

(** Modelled from the spec: [create_document] of [database.py], which is
    not among the sources.  The spec's store adapter is a generic create
    against a named collection, and the handlers return what it returns as
    the new document's id: it inserts the model's fields as a document
    under the identifier [new_id] the store assigns, and returns that
    identifier as a string. *)
Definition create_document `{BaseModel A} (collection_name : string) (data : A)
    (new_id : ident) (db : store) : string * store :=
  (str_id new_id,
   <[collection_name :=
       (db !!! collection_name)
       ++ [Document new_id (delete "_id" (model_dump data))]]> db).

(** ** Handlers ([main.py]) *)

(** [a or b] on Python values. *)
Definition py_or (a b : value) : value := if truthy a then a else b.

(** The auth dependency.  [authorization] is the [Authorization] header,
    [None] when the request has none. *)
Definition get_current_user (authorization : option string) (db : store)
  : outcome document :=
  match authorization with
  | None => HTTPException 401 "Missing Authorization header"
  | Some authorization =>
      if negb (truthy (VStr authorization))
      then HTTPException 401 "Missing Authorization header"
      else
        let token := replace authorization "Bearer " "" in
        match find_one [("auth_token", VStr token)] (db !!! "user") with
        | None => HTTPException 401 "Invalid token"
        | Some user => Ok user
        end
  end.

(** [token] is the result of [secrets.token_hex(16)], [new_id] the
    identifier the store assigns. *)
Definition signup (payload : AuthRequest.t) (token : string) (new_id : ident)
    (db : store) : outcome (gmap string value) * store :=
  match find_one [("email", VStr (AuthRequest.email payload))] (db !!! "user") with
  | Some existing => (HTTPException 400 "Email already registered", db)
  | None =>
      let user := User.new (AuthRequest.email payload)
                    (Some (AuthRequest.password payload)) (Some token) in
      let '(user_id, db') := create_document "user" user new_id db in
      (Ok {[ "token" := VStr token; "user_id" := VStr user_id ]}, db')
  end.

(** [token_hex] is what [secrets.token_hex(16)] returns if it is called. *)
Definition signin (payload : AuthRequest.t) (token_hex : string) (db : store)
  : outcome (gmap string value) * store :=
  match find_one [("email", VStr (AuthRequest.email payload));
                  ("password_hash", VStr (AuthRequest.password payload))]
                 (db !!! "user") with
  | None => (HTTPException 401 "Invalid credentials", db)
  | Some user =>
      let token := py_or (get_or_none user "auth_token") (VStr token_hex) in
      let response : gmap string value :=
        {[ "token" := token; "user_id" := VStr (str_id (doc_id user)) ]} in
      if negb (truthy (get_or_none user "auth_token"))
      then
        match update_one [("_id", id_value (doc_id user))]
                         (apply_set {[ "auth_token" := token ]})
                         (db !!! "user") with
        | Some users => (Ok response, <["user" := users]> db)
        | None => (Raised "WriteError", db)
        end
      else (Ok response, db)
  end.

Definition DEFAULT_FEATURES : list FeatureFlag.t :=
  [ FeatureFlag.make "widget.text" "free" true;
    FeatureFlag.make "widget.timer" "free" true;
    FeatureFlag.make "widget.countdown" "free" true;
    FeatureFlag.make "widget.youtube" "pro" true;
    FeatureFlag.make "widget.goal" "pro" true;
    FeatureFlag.make "widget.twitch_alert" "pro" true;
    FeatureFlag.make "widget.minigame_trivia" "pro" true;
    FeatureFlag.make "widget.minigame_poll" "pro" true;
    FeatureFlag.make "widget.leaderboard" "pro" true ].

(** The loop over the defaults: the first entry with this key and plan
    decides; [False] when there is none. *)
Fixpoint default_allowed (features : list FeatureFlag.t) (feature_key : string)
    (plan : value) : bool :=
  match features with
  | [] => false
  | f :: features' =>
      if String.eqb (FeatureFlag.feature_key f) feature_key
         && py_eq_str plan (FeatureFlag.plan_name f)
      then FeatureFlag.allowed f
      else default_allowed features' feature_key plan
  end.

Definition can_use_widget_type (user : document) (widget_type : string)
    (db : store) : bool :=
  let plan := default (VStr "free") (get user "plan") in
  let feature_key := "widget." +:+ widget_type in
  match find_one [("feature_key", VStr feature_key); ("plan_name", plan)]
                 (db !!! "featureflag") with
  | Some flag => truthy (default (VBool false) (get flag "allowed"))
  | None => default_allowed DEFAULT_FEATURES feature_key plan
  end.

Definition list_overlays (user : document) (db : store)
  : outcome (list (gmap string value)) :=
  let docs := find [("owner_user_id", VStr (str_id (doc_id user)))]
                   (db !!! "overlay") in
  Ok (pop_id <$> docs).

(** [secret] is the result of [secrets.token_urlsafe(16)]. *)
Definition create_overlay (payload : CreateOverlayRequest.t) (user : document)
    (secret : string) (new_id : ident) (db : store)
  : outcome (gmap string value) * store :=
  let overlay := Overlay.new (str_id (doc_id user))
                   (CreateOverlayRequest.name payload)
                   (CreateOverlayRequest.width payload)
                   (CreateOverlayRequest.height payload)
                   secret in
  let '(overlay_id, db') := create_document "overlay" overlay new_id db in
  (Ok {[ "id" := VStr overlay_id; "secret_token" := VStr secret ]}, db').

(** [db["overlay"].codec_options.document_class.objectid_class(overlay_id)]:
    the document class of a collection's codec options is Python's [dict],
    which has no attribute [objectid_class], so evaluating the expression
    raises AttributeError whatever the id.  [None] is that exception. *)
Definition objectid_class (overlay_id : string) : option value := None.

Definition delete_overlay (overlay_id : string) (user : document) (db : store)
  : outcome (gmap string value) * store :=
  match objectid_class overlay_id with
  | None => (Raised "AttributeError", db)
  | Some oid =>
      let doc := find_one [("_id", oid)] (db !!! "overlay") in
      let doc :=
        match doc with
        | Some d => Some d
        | None => find_one [("_id", VStr overlay_id)] (db !!! "overlay")
        end in
      match doc with
      | None => (HTTPException 404 "Overlay not found", db)
      | Some doc =>
          if negb (py_eq_str (get_or_none doc "owner_user_id") (str_id (doc_id user)))
          then (HTTPException 403 "Forbidden", db)
          else
            (Ok {[ "status" := VStr "ok" ]},
             <["overlay" :=
                 delete_one [("_id", id_value (doc_id doc))] (db !!! "overlay")]> db)
      end
  end.

Definition list_widgets (overlay_id : string) (user : document) (db : store)
  : outcome (list (gmap string value)) :=
  let overlay :=
    or_else (find_one [("_id", VStr overlay_id)] (db !!! "overlay"))
            (find_one [("_id", VStr overlay_id)] (db !!! "overlay")) in
  let overlay :=
    match overlay with
    | Some o => Some o
    | None => find_one [("id", VStr overlay_id)] (db !!! "overlay")
    end in
  let overlay :=
    match overlay with
    | Some o => Some o
    | None =>
        find_one [("owner_user_id", VStr (str_id (doc_id user)));
                  ("_id", VStr overlay_id)] (db !!! "overlay")
    end in
  match overlay with
  | None => HTTPException 404 "Overlay not found"
  | Some overlay =>
      if negb (py_eq_str (get_or_none overlay "owner_user_id") (str_id (doc_id user)))
      then HTTPException 403 "Forbidden"
      else
        let docs := find [("overlay_id", VStr overlay_id)] (db !!! "widget") in
        Ok (pop_id <$> docs)
  end.

Definition create_widget (payload : CreateWidgetRequest.t) (user : document)
    (new_id : ident) (db : store) : outcome (gmap string value) * store :=
  if negb (can_use_widget_type user (CreateWidgetRequest.type payload) db)
  then (HTTPException 402 "Upgrade plan to use this widget", db)
  else
    match Widget_of_payload payload with
    | None => (Raised "ValidationError", db)
    | Some widget =>
        let '(widget_id, db') := create_document "widget" widget new_id db in
        (Ok {[ "id" := VStr widget_id ]}, db')
    end.

(** [paths] is what the store does with the keys of [updates] that are
    not plain.  The driver encodes the update before it sends it, and
    raises (OverflowError, InvalidDocument) on what it cannot encode. *)
Definition update_widget (paths : path_semantics) (widget_id : string)
    (payload : UpdateWidgetRequest.t) (user : document) (db : store)
  : outcome (gmap string value) * store :=
  let doc := or_else (find_one [("_id", VStr widget_id)] (db !!! "widget"))
                     (find_one [("id", VStr widget_id)] (db !!! "widget")) in
  match doc with
  | None => (HTTPException 404 "Widget not found", db)
  | Some doc =>
      let overlay :=
        or_else (find_one [("_id", get_or_none doc "overlay_id")] (db !!! "overlay"))
                (find_one [("id", get_or_none doc "overlay_id")] (db !!! "overlay")) in
      match overlay with
      | None => (HTTPException 403 "Forbidden", db)
      | Some overlay =>
          if negb (py_eq_str (get_or_none overlay "owner_user_id")
                             (str_id (doc_id user)))
          then (HTTPException 403 "Forbidden", db)
          else if negb (encodable_update (UpdateWidgetRequest.updates payload))
          then (Raised "bson", db)
          else
            match update_one [("_id", id_value (doc_id doc))]
                             (set_document paths (UpdateWidgetRequest.updates payload))
                             (db !!! "widget") with
            | Some widgets =>
                (Ok {[ "status" := VStr "ok" ]}, <["widget" := widgets]> db)
            | None => (Raised "WriteError", db)
            end
      end
  end.

(** The dictionary [get_overlay_public] returns. *)
Record overlay_resp : Type := OverlayResp {
  resp_id : string;
  resp_name : value;
  resp_width : value;
  resp_height : value;
  resp_widgets : list (gmap string value)
}.

Definition get_overlay_public (overlay_id secret : string) (db : store)
  : outcome overlay_resp :=
  let overlay := or_else (find_one [("_id", VStr overlay_id)] (db !!! "overlay"))
                         (find_one [("id", VStr overlay_id)] (db !!! "overlay")) in
  match overlay with
  | None => HTTPException 404 "Not found"
  | Some overlay =>
      if negb (py_eq_str (get_or_none overlay "secret_token") secret)
      then HTTPException 404 "Not found"
      else
        let widgets := find [("overlay_id", VStr overlay_id)] (db !!! "widget") in
        Ok (OverlayResp
              (str_id (doc_id overlay))
              (get_or_none overlay "name")
              (get_or_none overlay "width")
              (get_or_none overlay "height")
              (pop_id <$> widgets))
  end.

(** ** The API as a transition system *)

(** What a request draws from outside the handlers: the random tokens,
    the identifier the store assigns to an insert, and the store's reading
    of the updates that are not plain. *)
Record env : Type := Env {
  env_token_hex : string;
  env_token_urlsafe : string;
  env_new_id : ident;
  env_paths : path_semantics
}.

(** The routes of [app].  An authenticated route carries the request's
    [Authorization] header. *)
Inductive request : Type :=
  | GetRoot
  | GetTest
  | PostSignup (payload : AuthRequest.t)
  | PostSignin (payload : AuthRequest.t)
  | GetOverlays (authorization : option string)
  | PostOverlays (authorization : option string) (payload : CreateOverlayRequest.t)
  | DeleteOverlay (authorization : option string) (overlay_id : string)
  | GetWidgets (authorization : option string) (overlay_id : string)
  | PostWidgets (authorization : option string) (payload : CreateWidgetRequest.t)
  | PatchWidget (authorization : option string) (widget_id : string)
      (payload : UpdateWidgetRequest.t)
  | GetOverlayPublic (overlay_id secret : string)
  | GetI18n (locale : string).

(** [user=Depends(get_current_user)]: the handler runs only when the
    dependency returns a user. *)
Definition depends {A : Type} (authorization : option string) (db : store)
    (handler : document → outcome A * store) : outcome A * store :=
  match get_current_user authorization db with
  | Ok user => handler user
  | HTTPException status_code detail => (HTTPException status_code detail, db)
  | Raised exc => (Raised exc, db)
  end.

(** The outcome of a handler without the body of its response. *)
Definition status {A : Type} (o : outcome A) : outcome unit :=
  match o with
  | Ok _ => Ok tt
  | HTTPException status_code detail => HTTPException status_code detail
  | Raised exc => Raised exc
  end.

Definition finish {A : Type} (r : outcome A * store) : outcome unit * store :=
  (status r.1, r.2).

(** One request against the store.  [root], [test_database] and
    [get_i18n] do not write to the store. *)
Definition run (e : env) (r : request) (db : store) : outcome unit * store :=
  match r with
  | GetRoot | GetTest | GetI18n _ => (Ok tt, db)
  | PostSignup payload =>
      finish (signup payload (env_token_hex e) (env_new_id e) db)
  | PostSignin payload =>
      finish (signin payload (env_token_hex e) db)
  | GetOverlays authorization =>
      finish (depends authorization db (λ user, (list_overlays user db, db)))
  | PostOverlays authorization payload =>
      finish (depends authorization db (λ user,
              create_overlay payload user (env_token_urlsafe e) (env_new_id e) db))
  | DeleteOverlay authorization overlay_id =>
      finish (depends authorization db (λ user,
              delete_overlay overlay_id user db))
  | GetWidgets authorization overlay_id =>
      finish (depends authorization db (λ user, (list_widgets overlay_id user db, db)))
  | PostWidgets authorization payload =>
      finish (depends authorization db (λ user,
              create_widget payload user (env_new_id e) db))
  | PatchWidget authorization widget_id payload =>
      finish (depends authorization db (λ user,
              update_widget (env_paths e) widget_id payload user db))
  | GetOverlayPublic overlay_id secret =>
      (status (get_overlay_public overlay_id secret db), db)
  end.



(** The plan the gate reads off a user, and the override row it looks up. *)
Definition user_plan (user : document) : value :=
  default (VStr "free") (get user "plan").

Definition override_row (user : document) (widget_type : string) (db : store)
  : option document :=
  find_one [("feature_key", VStr ("widget." +:+ widget_type));
            ("plan_name", user_plan user)] (db !!! "featureflag").

(** Whether [old] occurs somewhere in [s]. *)
Fixpoint occurs (old s : string) : bool :=
  String.prefix old s
  || match s with
     | EmptyString => false
     | String _ s' => occurs old s'
     end.

(** The token as the specification words it: a ["Bearer "] prefix is
    stripped if present, and the rest of the header is left as it is. *)
Definition strip_bearer_prefix (authorization : string) : string :=
  if String.prefix "Bearer " authorization
  then String.substring 7 (String.length authorization - 7) authorization
  else authorization.

(** ** The remaining routes *)

Definition root : gmap string string :=
  {[ "message" := "Stream Overlay SaaS API running" ]}.

Definition I18N_MESSAGES : gmap string (gmap string string) :=
  {[ "en" := {[ "title" := "Stream Overlays";
                "create_overlay" := "Create Overlay";
                "overlay_url" := "Overlay URL";
                "copy" := "Copy";
                "save" := "Save";
                "preview" := "Preview";
                "sign_in" := "Sign in" ]};
     "es" := {[ "title" := "Superposiciones de Stream";
                "create_overlay" := "Crear Superposición";
                "overlay_url" := "URL de Superposición";
                "copy" := "Copiar";
                "save" := "Guardar";
                "preview" := "Vista previa";
                "sign_in" := "Iniciar sesión" ]} ]}.

(** [I18N_MESSAGES.get(locale, I18N_MESSAGES["en"])]. *)
Definition get_i18n (locale : string) : gmap string string :=
  default (I18N_MESSAGES !!! "en") (I18N_MESSAGES !! locale).

(** ** Conditions on the store *)

(** Every document of the collection is stored under an ObjectId and has
    no field [id]. *)
Definition objectid_only (c : collection) : bool :=
  forallb (λ d, match doc_id d with
                | ObjectId _ => bool_decide (doc_fields d !! "id" = None)
                | StrId _ => false
                end) c.

(** No two documents of a collection share an [_id]. *)
Definition unique_ids (db : store) : Prop :=
  ∀ name : string, NoDup (doc_id <$> db !!! name).

(** No two users have the same string as [email]. *)
Definition unique_emails (users : collection) : Prop :=
  ∀ (i j : nat) (u v : document) (e : string),
    users !! i = Some u → users !! j = Some v →
    get u "email" = Some (VStr e) → get v "email" = Some (VStr e) →
    i = j.

(** The collection a request inserts into, if it inserts at all. *)
Definition inserts_into (r : request) : option string :=
  match r with
  | PostSignup _ => Some "user"
  | PostOverlays _ _ => Some "overlay"
  | PostWidgets _ _ => Some "widget"
  | _ => None
  end.

(** The [Authorization] header of a request to a route that depends on
    [get_current_user]; [None] for the routes that do not. *)
Definition authorization_of (r : request) : option (option string) :=
  match r with
  | GetOverlays a | PostOverlays a _ | DeleteOverlay a _
  | GetWidgets a _ | PostWidgets a _ | PatchWidget a _ _ => Some a
  | _ => None
  end.

(** ** Sample data *)

Module Sample.
Definition token_a : string := "0123456789abcdef0123456789abcdef".
Definition token_b : string := "fedcba9876543210fedcba9876543210".

(** A user on the free plan and one on the pro plan. *)
Definition free_user : document :=
  Document (StrId "u1")
    (model_dump (User.new "free@example.com" (Some "pw1") (Some token_a))).

Definition pro_user : document :=
  Document (StrId "u2")
    (<["plan" := VStr "pro"]>
       (model_dump (User.new "pro@example.com" (Some "pw2") (Some token_b)))).

Definition flag (feature_key plan_name : string) (allowed : bool) : document :=
  Document (ObjectId "f1")
    {[ "feature_key" := VStr feature_key;
       "plan_name" := VStr plan_name;
       "allowed" := VBool allowed ]}.

(** A store whose only override row denies text widgets to the free plan. *)
(** A user document that holds nothing but a plan. *)
Definition on_plan (plan : string) : document :=
  Document (StrId "u") {[ "plan" := VStr plan ]}.

(** A store whose only override row grants the free plan a widget type
    that is none of the [WidgetType] literals. *)
Definition db_allow_foo : store :=
  {[ "user" := [free_user; pro_user];
     "featureflag" := [flag "widget.foo" "free" true] ]}.

Definition widget_payload (overlay_id type : string) : CreateWidgetRequest.t :=
  CreateWidgetRequest.make overlay_id type 0 0 300 100 0 [] None [].

Definition overlay_doc (id owner secret : string) : document :=
  Document (StrId id) (model_dump (Overlay.new owner "Main" 1920 1080 secret)).

Definition widget_doc (id overlay_id type : string) : document :=
  Document (StrId id)
    {[ "overlay_id" := VStr overlay_id; "type" := VStr type;
       "x" := VInt 0; "y" := VInt 0 ]}.

(** An overlay of the free user with one text widget, and a widget left
    behind by an overlay that is gone. *)
Definition db_overlays : store :=
  {[ "user" := [free_user; pro_user];
     "overlay" := [overlay_doc "o1" "u1" "s3cr3t"];
     "widget" := [widget_doc "w1" "o1" "text"; widget_doc "w2" "o9" "timer"] ]}.

(** The sample overlay as the store keeps it when it assigns the
    identifier itself. *)
Definition overlay_by_oid : document :=
  Document (ObjectId "650f1a2b3c4d5e6f70819203")
    (model_dump (Overlay.new "u1" "Main" 1920 1080 "s3cr3t")).

Definition db_objectid : store :=
  {[ "user" := [free_user; pro_user];
     "overlay" := [overlay_by_oid];
     "widget" := [widget_doc "w1" "650f1a2b3c4d5e6f70819203" "text"] ]}.

(** A user stored without a token, beside the two others. *)
Definition legacy_user : document :=
  Document (StrId "u3") (model_dump (User.new "old@example.com" (Some "pw3") None)).

Definition db_legacy : store :=
  {[ "user" := [free_user; legacy_user; pro_user] ]}.

(** A store that refuses every update that is not plain. *)
Definition strict_paths : path_semantics.
Proof.
  refine (PathSemantics (λ _ _, None) _ _); intros; discriminate.
Defined.

(** What the sample requests draw from outside the handlers. *)
Definition sample_env : env :=
  Env token_b "c2VjcmV0LXRva2Vu" (ObjectId "aa") strict_paths.

Definition move_widget : UpdateWidgetRequest.t :=
  UpdateWidgetRequest.make "w1" {[ "x" := VInt 40 ]}.


Definition db_deny_text : store :=
  {[ "user" := [free_user; pro_user];
     "featureflag" := [flag "widget.text" "free" false] ]}.
End Sample.

(** * Properties *)

(** ** Strings *)

Lemma append_cons (c : Ascii.ascii) (s t : string) :
  String c s +:+ t = String c (s +:+ t).
Proof. reflexivity. Qed.

Lemma append_prefix_inj (p a b : string) : p +:+ a = p +:+ b → a = b.
Proof.
  induction p as [|c p IH]; [done|]. rewrite !append_cons. intros [= H]. auto.
Qed.

(** ** The store *)

Lemma value_eqb_id (i : ident) (v : value) :
  value_eqb (id_value i) v = true ↔ v = id_value i.
Proof.
  destruct i as [h|s], v; simpl; try (split; [discriminate | discriminate]).
  - rewrite String.eqb_eq. split; [intros ->; reflexivity | intros [= ->]; reflexivity].
  - rewrite String.eqb_eq. split; [intros ->; reflexivity | intros [= ->]; reflexivity].
Qed.

Lemma id_value_inj (i j : ident) : id_value i = id_value j → i = j.
Proof. destruct i, j; simpl; congruence. Qed.

Lemma get_id (d : document) : get d "_id" = Some (id_value (doc_id d)).
Proof. reflexivity. Qed.

Lemma get_field (d : document) (k : string) :
  k ≠ "_id" → get d k = doc_fields d !! k.
Proof.
  intros Hk. unfold get. destruct (String.eqb_spec k "_id"); [contradiction | reflexivity].
Qed.

(** A condition on [_id] holds exactly for the documents with that [_id]. *)
Lemma matches_id (v : value) (d : document) :
  matches [("_id", v)] d = value_eqb (id_value (doc_id d)) v.
Proof.
  unfold matches, get. simpl.
  destruct (doc_id d); simpl; rewrite ?orb_false_r, ?andb_true_r; reflexivity.
Qed.

Lemma matches_own_id (d e : document) :
  matches [("_id", id_value (doc_id d))] e = bool_decide (doc_id e = doc_id d).
Proof.
  rewrite matches_id.
  destruct (value_eqb (id_value (doc_id e)) (id_value (doc_id d))) eqn:E.
  - apply value_eqb_id, id_value_inj in E. rewrite bool_decide_eq_true_2; congruence.
  - rewrite bool_decide_eq_false_2; [reflexivity|].
    intros Heq. rewrite Heq in E.
    assert (value_eqb (id_value (doc_id d)) (id_value (doc_id d)) = true)
      by (apply value_eqb_id; reflexivity).
    congruence.
Qed.

(** A string condition on a field that holds a string is equality. *)
Lemma field_matches_str (s t : string) :
  field_matches (Some (VStr t)) (VStr s) = true ↔ t = s.
Proof. simpl. rewrite orb_false_r. apply String.eqb_eq. Qed.

Lemma find_one_Some (q : query) (c : collection) (d : document) :
  find_one q c = Some d → d ∈ c ∧ matches q d = true.
Proof.
  intros H. apply List.find_some in H as [Hin Hm].
  split; [by apply list_elem_of_In | done].
Qed.

Lemma find_one_None (q : query) (c : collection) (d : document) :
  find_one q c = None → d ∈ c → matches q d = false.
Proof.
  intros H Hin. apply list_elem_of_In in Hin.
  exact (List.find_none _ _ H d Hin).
Qed.

(** The document [find_one] returns is the first match: none before it
    matches. *)
Lemma find_one_split (q : query) (c : collection) (d : document) :
  find_one q c = Some d →
  ∃ l1 l2, c = l1 ++ d :: l2 ∧ matches q d = true
           ∧ Forall (λ e, matches q e = false) l1.
Proof.
  induction c as [|e c IH]; simpl; [discriminate|].
  destruct (matches q e) eqn:E.
  - intros [= ->]. exists [], c. auto.
  - intros H. destruct (IH H) as (l1 & l2 & -> & Hm & Hl).
    exists (e :: l1), l2. repeat split; auto.
Qed.

Lemma find_one_app (q : query) (l1 l2 : collection) :
  Forall (λ e, matches q e = false) l1 →
  find_one q (l1 ++ l2) = find_one q l2.
Proof.
  induction 1 as [|e l1 He _ IH]; simpl; [reflexivity|].
  unfold find_one in *. simpl. rewrite He. exact IH.
Qed.

Lemma delete_one_app (q : query) (l1 l2 : collection) (d : document) :
  Forall (λ e, matches q e = false) l1 → matches q d = true →
  delete_one q (l1 ++ d :: l2) = l1 ++ l2.
Proof.
  intros Hl Hd. induction Hl as [|e l1 He _ IH]; simpl.
  - rewrite Hd. reflexivity.
  - rewrite He, IH. reflexivity.
Qed.

Lemma update_one_app (q : query) (set : document → option document)
    (l1 l2 : collection) (d : document) :
  Forall (λ e, matches q e = false) l1 → matches q d = true →
  update_one q set (l1 ++ d :: l2) = (d' ← set d; Some (l1 ++ d' :: l2)).
Proof.
  intros Hl Hd. induction Hl as [|e l1 He _ IH]; simpl.
  - rewrite Hd. reflexivity.
  - rewrite He, IH. destruct (set d); reflexivity.
Qed.

(** ** The feature gate *)

Lemma default_allowed_entry (features : list FeatureFlag.t) (f : FeatureFlag.t) :
  (∀ g, g ∈ features →
        FeatureFlag.feature_key g = FeatureFlag.feature_key f →
        FeatureFlag.plan_name g = FeatureFlag.plan_name f →
        FeatureFlag.allowed g = FeatureFlag.allowed f) →
  f ∈ features →
  default_allowed features (FeatureFlag.feature_key f)
    (VStr (FeatureFlag.plan_name f)) = FeatureFlag.allowed f.
Proof.
  induction features as [|g features IH]; intros Hfun Hin.
  - by apply elem_of_nil in Hin.
  - simpl.
    destruct (String.eqb_spec (FeatureFlag.feature_key g) (FeatureFlag.feature_key f))
      as [Hk|Hk]; simpl.
    + destruct (String.eqb_spec (FeatureFlag.plan_name f) (FeatureFlag.plan_name g))
        as [Hp|Hp].
      * apply Hfun; [left | done | done].
      * apply elem_of_cons in Hin as [->|Hin]; [done|].
        apply IH; [|done]. intros g' Hg'. apply Hfun. by right.
    + apply elem_of_cons in Hin as [->|Hin]; [done|].
      apply IH; [|done]. intros g' Hg'. apply Hfun. by right.
Qed.

Lemma default_allowed_none (features : list FeatureFlag.t) (feature_key plan : string) :
  (∀ f, f ∈ features →
        ¬ (FeatureFlag.feature_key f = feature_key ∧ FeatureFlag.plan_name f = plan)) →
  default_allowed features feature_key (VStr plan) = false.
Proof.
  induction features as [|g features IH]; intros Hno; [reflexivity|].
  simpl.
  destruct (String.eqb_spec (FeatureFlag.feature_key g) feature_key) as [Hk|Hk]; simpl.
  - destruct (String.eqb_spec plan (FeatureFlag.plan_name g)) as [Hp|Hp].
    + exfalso. apply (Hno g); [left | done].
    + apply IH. intros f Hf. apply Hno. by right.
  - apply IH. intros f Hf. apply Hno. by right.
Qed.

(** Where the defaults grant, an entry of the table says so. *)
Lemma default_allowed_true (features : list FeatureFlag.t) (feature_key : string)
    (plan : value) :
  default_allowed features feature_key plan = true →
  ∃ f, f ∈ features ∧ FeatureFlag.feature_key f = feature_key
       ∧ plan = VStr (FeatureFlag.plan_name f) ∧ FeatureFlag.allowed f = true.
Proof.
  induction features as [|g features IH]; simpl; [discriminate|].
  destruct (String.eqb_spec (FeatureFlag.feature_key g) feature_key) as [Hk|Hk]; simpl.
  - destruct plan as [|b|z|x|p|h|ms|l|m]; simpl;
      try (intros H; destruct (IH H) as (f & ? & ?); exists f; split; [by right | done]).
    destruct (String.eqb_spec p (FeatureFlag.plan_name g)) as [->|Hp].
    + intros Ha. exists g. repeat split; [left | done | done].
    + intros H; destruct (IH H) as (f & ? & ?); exists f; split; [by right | done].
  - intros H; destruct (IH H) as (f & ? & ?); exists f; split; [by right | done].
Qed.

(** Every entry of the default table grants. *)
Lemma DEFAULT_FEATURES_allowed (f : FeatureFlag.t) :
  f ∈ DEFAULT_FEATURES → FeatureFlag.allowed f = true.
Proof.
  revert f. apply Forall_forall. unfold DEFAULT_FEATURES.
  repeat constructor.
Qed.

(** No key of the default table is listed for two plans. *)
Lemma DEFAULT_FEATURES_one_plan (f g : FeatureFlag.t) :
  f ∈ DEFAULT_FEATURES → g ∈ DEFAULT_FEATURES →
  FeatureFlag.feature_key f = FeatureFlag.feature_key g →
  FeatureFlag.plan_name f = FeatureFlag.plan_name g.
Proof.
  unfold DEFAULT_FEATURES. intros Hf Hg.
  repeat (apply elem_of_cons in Hf as [->|Hf]);
    try (by apply elem_of_nil in Hf);
    repeat (apply elem_of_cons in Hg as [->|Hg]);
    try (by apply elem_of_nil in Hg);
    simpl; intros H; first [reflexivity | discriminate H].
Qed.

Lemma can_use_widget_type_unfold (user : document) (widget_type : string)
    (db : store) (plan : string) :
  default (VStr "free") (get user "plan") = VStr plan →
  can_use_widget_type user widget_type db =
    match find_one [("feature_key", VStr ("widget." +:+ widget_type));
                    ("plan_name", VStr plan)] (db !!! "featureflag") with
    | Some flag => truthy (default (VBool false) (get flag "allowed"))
    | None => default_allowed DEFAULT_FEATURES ("widget." +:+ widget_type) (VStr plan)
    end.
Proof. intros Hplan. unfold can_use_widget_type. rewrite Hplan. reflexivity. Qed.

(** C1.  The feature gate, for a user on plan [plan] (the plan field, or
    ["free"] when the user has none) and any widget type.  If the
    featureflag collection has a row keyed by ["widget." + widget_type] and
    the plan, the row's [allowed] boolean is the result, whatever the
    defaults say.  If it has none, the result is the [allowed] value of the
    default entry with that key and plan, and false when no default entry
    has them.  So, without an override row, plan pro may use youtube and
    plan free may not; and an override row for (widget.youtube, free) with
    [allowed] true lets plan free use it. *)
Theorem can_use_widget_type_resolution
    (user : document) (plan widget_type : string) (db : store) :
  default (VStr "free") (get user "plan") = VStr plan →
  let feature_key := "widget." +:+ widget_type in
  let row := find_one [("feature_key", VStr feature_key); ("plan_name", VStr plan)]
                      (db !!! "featureflag") in
  (∀ flag b, row = Some flag → get flag "allowed" = Some (VBool b) →
             can_use_widget_type user widget_type db = b)
  ∧ (row = None →
     ∀ f, f ∈ DEFAULT_FEATURES →
          FeatureFlag.feature_key f = feature_key →
          FeatureFlag.plan_name f = plan →
          can_use_widget_type user widget_type db = FeatureFlag.allowed f)
  ∧ (row = None →
     (∀ f, f ∈ DEFAULT_FEATURES →
           ¬ (FeatureFlag.feature_key f = feature_key
              ∧ FeatureFlag.plan_name f = plan)) →
     can_use_widget_type user widget_type db = false)
  ∧ (row = None → widget_type = "youtube" → plan = "pro" →
     can_use_widget_type user widget_type db = true)
  ∧ (row = None → widget_type = "youtube" → plan = "free" →
     can_use_widget_type user widget_type db = false)
  ∧ (∀ flag, row = Some flag → get flag "allowed" = Some (VBool true) →
             widget_type = "youtube" → plan = "free" →
             can_use_widget_type user widget_type db = true).
Proof.
  intros Hplan feature_key row.
  pose proof (can_use_widget_type_unfold user widget_type db plan Hplan) as Hcan.
  fold feature_key in Hcan. fold row in Hcan.
  assert (Hrow : ∀ flag b, row = Some flag → get flag "allowed" = Some (VBool b) →
                           can_use_widget_type user widget_type db = b).
  { intros flag b Hr Ha. rewrite Hcan, Hr, Ha. reflexivity. }
  repeat split.
  - exact Hrow.
  - intros Hr f Hf Hk Hp. rewrite Hcan, Hr, <- Hk, <- Hp.
    apply default_allowed_entry; [|done].
    intros g Hg _ _.
    rewrite (DEFAULT_FEATURES_allowed g Hg), (DEFAULT_FEATURES_allowed f Hf).
    reflexivity.
  - intros Hr Hno. rewrite Hcan, Hr. by apply default_allowed_none.
  - intros Hr Hw Hp. rewrite Hcan, Hr. subst feature_key. subst widget_type plan.
    reflexivity.
  - intros Hr Hw Hp. rewrite Hcan, Hr. subst feature_key. subst widget_type plan.
    reflexivity.
  - intros flag Hr Ha _ _. by apply (Hrow flag true).
Qed.

(** An override row that denies wins over a default that grants. *)
Lemma can_use_widget_type_resolution_witness :
  default_allowed DEFAULT_FEATURES "widget.text" (VStr "free") = true
  ∧ can_use_widget_type Sample.free_user "text" Sample.db_deny_text = false.
Proof.
  split; [reflexivity|].
  apply (proj1 (can_use_widget_type_resolution
                  Sample.free_user "free" "text" Sample.db_deny_text eq_refl)
               (Sample.flag "widget.text" "free" false) false);
    vm_compute; reflexivity.
Defined.

Lemma can_use_widget_type_default (user : document) (widget_type : string)
    (db : store) :
  override_row user widget_type db = None →
  can_use_widget_type user widget_type db =
    default_allowed DEFAULT_FEATURES ("widget." +:+ widget_type) (user_plan user).
Proof.
  unfold override_row, user_plan, can_use_widget_type. intros ->. reflexivity.
Qed.

(** C10, as the code has it.  Without a matching override row the gate
    grants a widget type to at most one plan: two users both granted the
    same type are on the same plan.  A type of the default table is granted
    to exactly the plan the table lists for it.  So a user on plan pro is
    refused text, timer and countdown, which a user on plan free is
    granted. *)
Theorem default_gate_one_plan (db : store) :
  (∀ user1 user2 widget_type,
     override_row user1 widget_type db = None →
     override_row user2 widget_type db = None →
     can_use_widget_type user1 widget_type db = true →
     can_use_widget_type user2 widget_type db = true →
     user_plan user1 = user_plan user2)
  ∧ (∀ f user widget_type,
       f ∈ DEFAULT_FEATURES →
       FeatureFlag.feature_key f = "widget." +:+ widget_type →
       override_row user widget_type db = None →
       (can_use_widget_type user widget_type db = true
        ↔ user_plan user = VStr (FeatureFlag.plan_name f)))
  ∧ (∀ user widget_type,
       widget_type ∈ ["text"; "timer"; "countdown"] →
       override_row user widget_type db = None →
       (user_plan user = VStr "pro" →
        can_use_widget_type user widget_type db = false)
       ∧ (user_plan user = VStr "free" →
          can_use_widget_type user widget_type db = true)).
Proof.
  split; [|split].
  - intros user1 user2 widget_type H1 H2.
    rewrite (can_use_widget_type_default _ _ _ H1),
            (can_use_widget_type_default _ _ _ H2).
    intros (f & Hf & Hfk & -> & _)%default_allowed_true
           (g & Hg & Hgk & -> & _)%default_allowed_true.
    f_equal. apply DEFAULT_FEATURES_one_plan; congruence.
  - intros f user widget_type Hf Hkey Hrow.
    rewrite (can_use_widget_type_default _ _ _ Hrow), <- Hkey. split.
    + intros (g & Hg & Hgk & -> & _)%default_allowed_true.
      f_equal. by apply DEFAULT_FEATURES_one_plan.
    + intros ->.
      rewrite default_allowed_entry; [by apply DEFAULT_FEATURES_allowed | | done].
      intros g Hg _ _.
      by rewrite (DEFAULT_FEATURES_allowed g Hg), (DEFAULT_FEATURES_allowed f Hf).
  - intros user widget_type Hin Hrow.
    rewrite (can_use_widget_type_default _ _ _ Hrow).
    split; intros ->;
      repeat (apply elem_of_cons in Hin as [->|Hin]); try reflexivity;
      by apply elem_of_nil in Hin.
Qed.

(** In the empty store, plan pro is refused the text widget that plan free
    is granted. *)
Lemma default_gate_one_plan_witness :
  can_use_widget_type (Sample.on_plan "pro") "text" ∅ = false
  ∧ can_use_widget_type (Sample.on_plan "free") "text" ∅ = true.
Proof.
  pose proof (proj2 (proj2 (default_gate_one_plan ∅))) as H.
  split.
  - apply (H (Sample.on_plan "pro") "text"); [by left | reflexivity | reflexivity].
  - apply (H (Sample.on_plan "free") "text"); [by left | reflexivity | reflexivity].
Defined.

(** C10 as stated fails for the widget type image: with no override row
    the gate grants it to neither plan, not to exactly one. *)
Lemma image_granted_to_no_plan :
  "image" ∈ WidgetType
  ∧ PlanName = ["free"; "pro"]
  ∧ override_row (Sample.on_plan "free") "image" ∅ = None
  ∧ can_use_widget_type (Sample.on_plan "free") "image" ∅ = false
  ∧ override_row (Sample.on_plan "pro") "image" ∅ = None
  ∧ can_use_widget_type (Sample.on_plan "pro") "image" ∅ = false.
Proof.
  split; [|by repeat split].
  unfold WidgetType. do 4 right. left.
Qed.

(** ** Creating widgets *)

(** The gate reads the featureflag collection only. *)
Lemma can_use_widget_type_frame (user : document) (widget_type : string)
    (db : store) (name : string) (c : collection) :
  name ≠ "featureflag" →
  can_use_widget_type user widget_type (<[name := c]> db)
  = can_use_widget_type user widget_type db.
Proof.
  intros Hne. unfold can_use_widget_type.
  rewrite lookup_total_insert_ne; [reflexivity | done].
Qed.

(** C4.  When the gate refuses the payload's widget type to the caller,
    [create_widget] raises 402 and leaves the whole store, the widget
    collection included, as it was; so does the route, for a caller the
    auth dependency accepts. *)
Theorem create_widget_denied
    (payload : CreateWidgetRequest.t) (user : document) (new_id : ident)
    (db : store) :
  can_use_widget_type user (CreateWidgetRequest.type payload) db = false →
  create_widget payload user new_id db
  = (HTTPException 402 "Upgrade plan to use this widget", db)
  ∧ (create_widget payload user new_id db).2 !!! "widget" = db !!! "widget"
  ∧ (∀ e authorization,
       get_current_user authorization db = Ok user →
       run e (PostWidgets authorization payload) db
       = (HTTPException 402 "Upgrade plan to use this widget", db)).
Proof.
  intros Hgate.
  assert (create_widget payload user new_id db
          = (HTTPException 402 "Upgrade plan to use this widget", db)) as Hc.
  { unfold create_widget. rewrite Hgate. reflexivity. }
  split; [exact Hc|]. split; [by rewrite Hc|].
  intros e authorization Hauth. simpl. unfold depends. rewrite Hauth.
  unfold create_widget. rewrite Hgate. reflexivity.
Qed.

(** A free-plan caller asking for a youtube widget. *)
Lemma create_widget_denied_witness :
  create_widget (Sample.widget_payload "o1" "youtube") Sample.free_user
    (ObjectId "w1") Sample.db_deny_text
  = (HTTPException 402 "Upgrade plan to use this widget", Sample.db_deny_text).
Proof.
  apply (create_widget_denied (Sample.widget_payload "o1" "youtube")
           Sample.free_user (ObjectId "w1") Sample.db_deny_text).
  vm_compute. reflexivity.
Defined.

(** The defaults grant no type that is not a [WidgetType] literal. *)
Lemma default_allowed_literal (widget_type : string) (plan : value) :
  default_allowed DEFAULT_FEATURES ("widget." +:+ widget_type) plan = true →
  literal WidgetType widget_type = true.
Proof.
  intros (f & Hf & Hkey & _)%default_allowed_true.
  unfold DEFAULT_FEATURES in Hf.
  repeat (apply elem_of_cons in Hf as [->|Hf]);
    try (by apply elem_of_nil in Hf);
    simpl in Hkey;
    match type of Hkey with
    | ?k = _ =>
        let t := eval vm_compute in (String.substring 7 (String.length k - 7) k) in
        change k with ("widget." +:+ t) in Hkey
    end;
    apply append_prefix_inj in Hkey; subst widget_type; reflexivity.
Qed.

(** C3, as the code has it.  Let the gate grant the payload's widget type
    to the caller.  When the type is one of the [WidgetType] literals,
    [create_widget] appends one widget to the widget collection, with the
    payload's [overlay_id] and type and the identifier the store assigns,
    changes no other collection, and returns that identifier; the overlay
    collection plays no part: the call succeeds the same whatever overlays
    the store holds, so no ownership of [overlay_id] is checked.  When the
    type is none of the literals, which only an override row can grant,
    the [Widget] model refuses the payload: the handler raises and the
    store is as it was. *)
Theorem create_widget_granted
    (payload : CreateWidgetRequest.t) (user : document) (new_id : ident)
    (db : store) :
  can_use_widget_type user (CreateWidgetRequest.type payload) db = true →
  (literal WidgetType (CreateWidgetRequest.type payload) = true →
   (∃ widget,
      create_widget payload user new_id db
      = (Ok {[ "id" := VStr (str_id new_id) ]},
         <["widget" := (db !!! "widget") ++ [widget]]> db)
      ∧ doc_id widget = new_id
      ∧ get widget "overlay_id"
        = Some (VStr (CreateWidgetRequest.overlay_id payload))
      ∧ get widget "type" = Some (VStr (CreateWidgetRequest.type payload)))
   ∧ (∀ overlays,
        (create_widget payload user new_id (<["overlay" := overlays]> db)).1
        = Ok {[ "id" := VStr (str_id new_id) ]}))
  ∧ (literal WidgetType (CreateWidgetRequest.type payload) = false →
     create_widget payload user new_id db = (Raised "ValidationError", db)
     ∧ ∃ row, override_row user (CreateWidgetRequest.type payload) db = Some row).
Proof.
  intros Hgate. split; intros Htype.
  - split.
    + unfold create_widget, Widget_of_payload. rewrite Hgate, Htype. simpl.
      eexists. split; [reflexivity|]. repeat split.
    + intros overlays. unfold create_widget, Widget_of_payload.
      rewrite can_use_widget_type_frame by done. rewrite Hgate, Htype.
      reflexivity.
  - split.
    + unfold create_widget, Widget_of_payload. by rewrite Hgate, Htype.
    + destruct (override_row user (CreateWidgetRequest.type payload) db)
        as [row|] eqn:Hrow; [by exists row|].
      rewrite (can_use_widget_type_default _ _ _ Hrow) in Hgate.
      apply default_allowed_literal in Hgate. congruence.
Qed.

(** A free-plan caller creates a text widget on an overlay id that no
    overlay of the store has; a type that only an override row grants is
    refused by the model. *)
Lemma create_widget_granted_witness :
  (create_widget (Sample.widget_payload "nobody's overlay" "text")
     Sample.free_user (ObjectId "w1") ∅).1
  = Ok {[ "id" := VStr "w1" ]}
  ∧ create_widget (Sample.widget_payload "o1" "foo") Sample.free_user
      (ObjectId "w1") Sample.db_allow_foo
    = (Raised "ValidationError", Sample.db_allow_foo).
Proof.
  split.
  - pose proof (proj1 (create_widget_granted
                         (Sample.widget_payload "nobody's overlay" "text")
                         Sample.free_user (ObjectId "w1") ∅ eq_refl) eq_refl)
      as ((widget & H & _) & _).
    rewrite H. reflexivity.
  - assert (can_use_widget_type Sample.free_user
              (CreateWidgetRequest.type (Sample.widget_payload "o1" "foo"))
              Sample.db_allow_foo = true) as Hgate
      by (vm_compute; reflexivity).
    apply (proj1 (proj2 (create_widget_granted (Sample.widget_payload "o1" "foo")
                           Sample.free_user (ObjectId "w1") Sample.db_allow_foo
                           Hgate) eq_refl)).
Defined.

(** C3 as stated fails for a type outside [WidgetType] that an override row
    grants: the gate lets the caller through, the [Widget] model refuses the
    type, and nothing is stored or returned. *)
Lemma create_widget_granted_unknown_type :
  can_use_widget_type Sample.free_user "foo" Sample.db_allow_foo = true
  ∧ create_widget (Sample.widget_payload "o1" "foo") Sample.free_user
      (ObjectId "w1") Sample.db_allow_foo
    = (Raised "ValidationError", Sample.db_allow_foo).
Proof. split; vm_compute; reflexivity. Qed.

(** ** The public overlay endpoint *)

Lemma py_eq_str_get (d : document) (k s : string) :
  py_eq_str (get_or_none d k) s = true ↔ get d k = Some (VStr s).
Proof.
  unfold get_or_none. destruct (get d k) as [v|]; simpl.
  - destruct v; simpl; try (split; [discriminate | intros [=]]).
    rewrite String.eqb_eq. split; [by intros -> | by intros [= ->]].
  - split; [discriminate | intros [=]].
Qed.

Lemma py_eq_str_get_false (d : document) (k s : string) :
  py_eq_str (get_or_none d k) s = false ↔ get d k ≠ Some (VStr s).
Proof.
  rewrite <- py_eq_str_get. destruct (py_eq_str (get_or_none d k) s); split;
    congruence.
Qed.

(** [get_overlay_public] by its lookups: it answers with a body exactly
    when the lookup by [_id] as a string, or else by the field [id], finds
    an overlay and that overlay's [secret_token] is the string [secret].  The body then holds the overlay's id, name and dimensions
    and every widget of the widget collection whose [overlay_id] is the
    given id.  In every other case, absent overlay or other secret alike,
    the outcome is the one exception 404 "Not found", which carries no
    widget. *)
Theorem get_overlay_public_spec (overlay_id secret : string) (db : store) :
  let overlay := or_else (find_one [("_id", VStr overlay_id)] (db !!! "overlay"))
                         (find_one [("id", VStr overlay_id)] (db !!! "overlay")) in
  ((∃ resp, get_overlay_public overlay_id secret db = Ok resp)
   ↔ ∃ o, overlay = Some o ∧ get o "secret_token" = Some (VStr secret))
  ∧ (∀ o, overlay = Some o → get o "secret_token" = Some (VStr secret) →
          get_overlay_public overlay_id secret db
          = Ok (OverlayResp (str_id (doc_id o))
                  (get_or_none o "name")
                  (get_or_none o "width")
                  (get_or_none o "height")
                  (pop_id <$> find [("overlay_id", VStr overlay_id)]
                                   (db !!! "widget"))))
  ∧ (overlay = None ∨ (∃ o, overlay = Some o
                            ∧ get o "secret_token" ≠ Some (VStr secret)) →
     get_overlay_public overlay_id secret db = HTTPException 404 "Not found").
Proof.
  intros overlay. unfold get_overlay_public. fold overlay.
  destruct overlay as [o|] eqn:Ho.
  - destruct (py_eq_str (get_or_none o "secret_token") secret) eqn:Hs; simpl.
    + apply py_eq_str_get in Hs. repeat split.
      * intros _. by exists o.
      * intros _. eauto.
      * by intros ? [= <-] _.
      * intros [[=] | (o' & [= <-] & Hne)]. contradiction.
    + apply py_eq_str_get_false in Hs. repeat split.
      * intros [resp [=]].
      * intros (o' & [= <-] & Heq). contradiction.
      * intros o' [= <-] Heq. contradiction.
  - repeat split.
    + intros [resp [=]].
    + intros (o' & [=] & _).
    + intros o' [=].
Qed.

(** With the right secret the overlay is served with its one widget; with
    a wrong secret or an unknown id the answer is the same 404. *)
Lemma get_overlay_public_spec_witness :
  get_overlay_public "o1" "s3cr3t" Sample.db_overlays
  = Ok (OverlayResp "o1" (VStr "Main") (VInt 1920) (VInt 1080)
          [ {[ "id" := VStr "w1"; "overlay_id" := VStr "o1";
               "type" := VStr "text"; "x" := VInt 0; "y" := VInt 0 ]} ])
  ∧ get_overlay_public "o1" "guess" Sample.db_overlays
    = HTTPException 404 "Not found"
  ∧ get_overlay_public "o2" "s3cr3t" Sample.db_overlays
    = HTTPException 404 "Not found".
Proof.
  split; [|split].
  - rewrite (proj1 (proj2 (get_overlay_public_spec "o1" "s3cr3t" Sample.db_overlays))
               (Sample.overlay_doc "o1" "u1" "s3cr3t") eq_refl eq_refl).
    vm_compute. reflexivity.
  - apply (proj2 (proj2 (get_overlay_public_spec "o1" "guess" Sample.db_overlays))).
    right. exists (Sample.overlay_doc "o1" "u1" "s3cr3t").
    split; [reflexivity | discriminate].
  - apply (proj2 (proj2 (get_overlay_public_spec "o2" "s3cr3t" Sample.db_overlays))).
    left. reflexivity.
Defined.

(** ** Authentication *)

Lemma replace_from_no_occurrence (old new s : string) :
  occurs old s = false → replace_from old new O s = s.
Proof.
  induction s as [|c s IH]; [reflexivity|].
  cbn [occurs replace_from]. intros [Hp Ho]%orb_false_iff.
  rewrite Hp, (IH Ho). reflexivity.
Qed.

Lemma replace_bearer_absent (t : string) :
  occurs "Bearer " t = false → replace t "Bearer " "" = t.
Proof. apply replace_from_no_occurrence. Qed.

Lemma prefix_append (old t : string) : String.prefix old (old +:+ t) = true.
Proof.
  induction old as [|c old IH]; [by destruct t|].
  rewrite append_cons. cbn [String.prefix].
  destruct (Ascii.ascii_dec c c); [exact IH | contradiction].
Qed.

(** Once an occurrence is found, its remaining characters are dropped. *)
Lemma replace_from_skip (old new pre t : string) :
  replace_from old new (String.length pre) (pre +:+ t) = replace_from old new O t.
Proof.
  induction pre as [|c pre IH]; [reflexivity|].
  rewrite append_cons. cbn [String.length replace_from]. exact IH.
Qed.

Lemma replace_from_prefix (c : Ascii.ascii) (old new t : string) :
  replace_from (String c old) new O (String c old +:+ t)
  = new +:+ replace_from (String c old) new O t.
Proof.
  rewrite append_cons. cbn [replace_from].
  rewrite <- append_cons, prefix_append. cbn [String.length Nat.pred].
  rewrite replace_from_skip. reflexivity.
Qed.

Lemma replace_bearer_prefix (t : string) :
  occurs "Bearer " t = false → replace ("Bearer " +:+ t) "Bearer " "" = t.
Proof.
  intros H. unfold replace. rewrite replace_from_prefix.
  rewrite replace_from_no_occurrence by done. reflexivity.
Qed.

Example replace_inner_occurrence :
  replace "Bearer abBearer cd" "Bearer " "" = "abcd".
Proof. reflexivity. Qed.

Example replace_without_overlap : replace "aaa" "aa" "b" = "ba".
Proof. reflexivity. Qed.

Example replace_empty_old : replace "ab" "" "-" = "-a-b-".
Proof. reflexivity. Qed.

(** A token of [secrets.token_hex] has no occurrence of ["Bearer "]. *)
Example token_hex_sample :
  is_token_hex 16 Sample.token_a = true ∧ occurs "Bearer " Sample.token_a = false.
Proof. split; reflexivity. Qed.

(** C6, as the code has it.  [get_current_user] raises 401 for a missing
    or empty header.  Otherwise it removes every occurrence of ["Bearer "]
    from the header, not only a prefix, and returns the first user the
    lookup by [auth_token] finds for the resulting string, or raises 401
    when it finds none; a user returned with a string token has exactly
    that string as token.  A header without any occurrence is looked up
    unchanged, and a header that is ["Bearer "] followed by a string
    without further occurrence is looked up as that string. *)
Theorem get_current_user_spec (db : store) :
  (get_current_user None db = HTTPException 401 "Missing Authorization header"
   ∧ get_current_user (Some "") db
     = HTTPException 401 "Missing Authorization header")
  ∧ (∀ authorization user,
       authorization ≠ "" →
       (get_current_user (Some authorization) db = Ok user
        ↔ find_one [("auth_token", VStr (replace authorization "Bearer " ""))]
                   (db !!! "user") = Some user))
  ∧ (∀ authorization,
       authorization ≠ "" →
       find_one [("auth_token", VStr (replace authorization "Bearer " ""))]
                (db !!! "user") = None →
       get_current_user (Some authorization) db
       = HTTPException 401 "Invalid token")
  ∧ (∀ authorization user t,
       get_current_user (Some authorization) db = Ok user →
       get user "auth_token" = Some (VStr t) →
       user ∈ db !!! "user" ∧ t = replace authorization "Bearer " "")
  ∧ (∀ t, occurs "Bearer " t = false →
          replace t "Bearer " "" = t
          ∧ replace ("Bearer " +:+ t) "Bearer " "" = t).
Proof.
  assert (Hne : ∀ a, a ≠ "" → negb (truthy (VStr a)) = false).
  { intros a Ha. simpl. destruct (String.eqb_spec a ""); [contradiction | reflexivity]. }
  split; [by split|]. split; [|split; [|split]].
  - intros a user Ha. unfold get_current_user. rewrite (Hne a Ha).
    destruct (find_one _ _) as [u|]; split; congruence.
  - intros a Ha Hnone. unfold get_current_user. rewrite (Hne a Ha), Hnone.
    reflexivity.
  - intros a user t Hok Htok. unfold get_current_user in Hok.
    destruct (negb (truthy (VStr a))); [discriminate|].
    destruct (find_one _ _) as [u|] eqn:Hfind; [|discriminate].
    injection Hok as ->. apply find_one_Some in Hfind as [Hin Hm].
    split; [exact Hin|].
    unfold matches in Hm. simpl in Hm. rewrite Htok, andb_true_r in Hm.
    by apply field_matches_str in Hm.
  - intros t Ht. split; [by apply replace_bearer_absent | by apply replace_bearer_prefix].
Qed.

(** The sample free user signs in with the usual header. *)
Lemma get_current_user_spec_witness :
  get_current_user (Some ("Bearer " +:+ Sample.token_a)) Sample.db_overlays
  = Ok Sample.free_user.
Proof.
  apply (proj1 (proj2 (get_current_user_spec Sample.db_overlays))
           ("Bearer " +:+ Sample.token_a) Sample.free_user).
  - discriminate.
  - vm_compute. reflexivity.
Defined.

(** C6 as stated fails on a header with a second ["Bearer "]: the rest of
    the header after the prefix is no user's token, so the claim has the
    request refused, yet the code drops the second occurrence too and
    returns the user. *)
Lemma get_current_user_strips_every_occurrence :
  let authorization := "Bearer Bearer " +:+ Sample.token_a in
  strip_bearer_prefix authorization = "Bearer " +:+ Sample.token_a
  ∧ find_one [("auth_token", VStr (strip_bearer_prefix authorization))]
             (Sample.db_overlays !!! "user") = None
  ∧ get_current_user (Some authorization) Sample.db_overlays
    = Ok Sample.free_user.
Proof. repeat split; vm_compute; reflexivity. Qed.

(** ** Signing up and signing in *)

Lemma find_one_None_Forall (q : query) (c : collection) :
  find_one q c = None → Forall (λ e, matches q e = false) c.
Proof.
  intros H. apply Forall_forall. intros d Hd. by apply (find_one_None q c).
Qed.

Lemma find_one_is_Some (q : query) (c : collection) (d : document) :
  d ∈ c → matches q d = true → is_Some (find_one q c).
Proof.
  intros Hin Hm. destruct (find_one q c) as [e|] eqn:E; [by exists e|].
  rewrite (find_one_None q c d E Hin) in Hm. discriminate.
Qed.

(** What [secrets.token_hex(16)] returns is not the empty string. *)
Lemma token_hex_truthy (t : string) :
  is_token_hex 16 t = true → truthy (VStr t) = true.
Proof.
  unfold is_token_hex. intros [Hlen _]%andb_true_iff.
  destruct t; [discriminate | reflexivity].
Qed.

(** C7.  When a stored user has the payload's email, [signup] raises 400
    "Email already registered" and leaves the store, the user collection
    included, as it was.  When the lookup by email finds no user, it
    appends one user with the payload's email and password and the token
    drawn from [secrets.token_hex(16)], 32 hexadecimal characters, and
    returns that token with the new user's id; the new user is then found
    by its email. *)
Theorem signup_spec
    (payload : AuthRequest.t) (token : string) (new_id : ident) (db : store) :
  is_token_hex 16 token = true →
  let by_email := [("email", VStr (AuthRequest.email payload))] in
  (∀ existing,
     existing ∈ db !!! "user" →
     get existing "email" = Some (VStr (AuthRequest.email payload)) →
     signup payload token new_id db
     = (HTTPException 400 "Email already registered", db))
  ∧ (find_one by_email (db !!! "user") = None →
     ∃ user,
       signup payload token new_id db
       = (Ok {[ "token" := VStr token; "user_id" := VStr (str_id new_id) ]},
          <["user" := (db !!! "user") ++ [user]]> db)
       ∧ doc_id user = new_id
       ∧ get user "email" = Some (VStr (AuthRequest.email payload))
       ∧ get user "password_hash" = Some (VStr (AuthRequest.password payload))
       ∧ get user "auth_token" = Some (VStr token)
       ∧ String.length token = 32%nat
       ∧ forallb is_hex_digit (String.list_ascii_of_string token) = true
       ∧ find_one by_email ((db !!! "user") ++ [user]) = Some user).
Proof.
  intros Htok by_email. split.
  - intros existing Hin Hemail.
    destruct (find_one_is_Some by_email (db !!! "user") existing Hin) as [u Hu].
    { unfold by_email, matches. simpl. rewrite Hemail, andb_true_r.
      by apply field_matches_str. }
    unfold signup. fold by_email. rewrite Hu. reflexivity.
  - intros Hnone. unfold signup. fold by_email. rewrite Hnone. simpl.
    apply andb_true_iff in Htok as [Hlen Hhex]. apply Nat.eqb_eq in Hlen.
    eexists. split; [reflexivity|]. repeat split; [done | done |].
    rewrite find_one_app by by apply find_one_None_Forall.
    unfold find_one, by_email, matches, get. simpl.
    match goal with
    | |- context [field_matches ?l _] =>
        change l with (Some (VStr (AuthRequest.email payload)))
    end.
    simpl. rewrite String.eqb_refl. reflexivity.
Qed.

(** A new email against the sample store, and the sample free user's
    email once more. *)
Lemma signup_spec_witness :
  (signup (AuthRequest.make "new@example.com" "pw") Sample.token_b
     (ObjectId "aa") Sample.db_legacy).1
  = Ok {[ "token" := VStr Sample.token_b; "user_id" := VStr "aa" ]}
  ∧ signup (AuthRequest.make "free@example.com" "other") Sample.token_b
      (ObjectId "aa") Sample.db_legacy
    = (HTTPException 400 "Email already registered", Sample.db_legacy).
Proof.
  split.
  - destruct (proj2 (signup_spec (AuthRequest.make "new@example.com" "pw")
                       Sample.token_b (ObjectId "aa") Sample.db_legacy eq_refl)
                eq_refl) as (user & H & _).
    rewrite H. reflexivity.
  - apply (proj1 (signup_spec (AuthRequest.make "free@example.com" "other")
                    Sample.token_b (ObjectId "aa") Sample.db_legacy eq_refl)
             Sample.free_user).
    + vm_compute. left.
    + reflexivity.
Defined.

(** Where identifiers are unique, a condition on a document's own [_id]
    singles out that document. *)
Lemma own_id_first (l1 l2 : collection) (d : document) :
  NoDup (doc_id <$> (l1 ++ d :: l2)) →
  Forall (λ e, matches [("_id", id_value (doc_id d))] e = false) l1
  ∧ matches [("_id", id_value (doc_id d))] d = true.
Proof.
  rewrite fmap_app, fmap_cons. intros (_ & Hnot & _)%NoDup_app. split.
  - apply Forall_forall. intros e He. rewrite matches_own_id.
    apply bool_decide_eq_false_2. intros Heq.
    apply (Hnot (doc_id e)); [by apply list_elem_of_fmap_2 | rewrite Heq; left].
  - rewrite matches_own_id. by apply bool_decide_eq_true_2.
Qed.

(** C8.  [signin] raises 401 "Invalid credentials" and leaves the store as
    it was whenever the lookup by email and password finds no user.  When
    it finds a user that has no token, it stores the token drawn from
    [secrets.token_hex(16)] on that user and returns it; a second [signin]
    with the same credentials then returns that same token, whatever the
    generator would draw, and changes nothing.  Identifiers are unique in
    the user collection, as the store keeps them. *)
Theorem signin_spec (payload : AuthRequest.t) (db : store) :
  let credentials := [("email", VStr (AuthRequest.email payload));
                      ("password_hash", VStr (AuthRequest.password payload))] in
  (∀ token_hex,
     find_one credentials (db !!! "user") = None →
     signin payload token_hex db = (HTTPException 401 "Invalid credentials", db))
  ∧ (∀ user token1 token2,
       NoDup (doc_id <$> db !!! "user") →
       find_one credentials (db !!! "user") = Some user →
       truthy (get_or_none user "auth_token") = false →
       is_token_hex 16 token1 = true →
       ∃ db1 user1,
         signin payload token1 db
         = (Ok {[ "token" := VStr token1;
                  "user_id" := VStr (str_id (doc_id user)) ]}, db1)
         ∧ find_one credentials (db1 !!! "user") = Some user1
         ∧ doc_id user1 = doc_id user
         ∧ get user1 "auth_token" = Some (VStr token1)
         ∧ signin payload token2 db1
           = (Ok {[ "token" := VStr token1;
                    "user_id" := VStr (str_id (doc_id user)) ]}, db1)).
Proof.
  intros credentials. split.
  - intros token_hex Hnone. unfold signin. fold credentials. rewrite Hnone.
    reflexivity.
  - intros user token1 token2 Hnodup Hfind Hnotoken Htok.
    destruct (find_one_split _ _ _ Hfind) as (l1 & l2 & Husers & Hm & Hl1).
    rewrite Husers in Hnodup.
    destruct (own_id_first l1 l2 user Hnodup) as [Hid1 Hid].
    set (user1 := Document (doc_id user)
                    ({[ "auth_token" := VStr token1 ]} ∪ doc_fields user)).
    assert (Hm1 : matches credentials user1 = true).
    { revert Hm. unfold credentials, matches, get. simpl.
      rewrite !lookup_union_r by done. done. }
    assert (Htoken1 : get user1 "auth_token" = Some (VStr token1)).
    { unfold get, user1. simpl. apply lookup_union_Some_l, lookup_singleton_eq. }
    assert (Hfind1 : find_one credentials (l1 ++ user1 :: l2) = Some user1).
    { rewrite find_one_app by done. unfold find_one. cbn [List.find].
      by rewrite Hm1. }
    exists (<["user" := l1 ++ user1 :: l2]> db), user1.
    split; [|split; [|split; [|split]]].
    + unfold signin. fold credentials. rewrite Hfind. unfold py_or.
      rewrite Hnotoken. simpl. rewrite Husers, update_one_app by done.
      reflexivity.
    + by rewrite lookup_total_insert_eq.
    + reflexivity.
    + exact Htoken1.
    + unfold signin. fold credentials.
      rewrite lookup_total_insert_eq, Hfind1. unfold py_or, get_or_none.
      rewrite Htoken1. simpl default. rewrite (token_hex_truthy _ Htok).
      reflexivity.
Qed.

(** The sample user stored without a token signs in twice. *)
Lemma signin_spec_witness :
  ∃ db1,
    signin (AuthRequest.make "old@example.com" "pw3") Sample.token_a Sample.db_legacy
    = (Ok {[ "token" := VStr Sample.token_a; "user_id" := VStr "u3" ]}, db1)
    ∧ signin (AuthRequest.make "old@example.com" "pw3") Sample.token_b db1
      = (Ok {[ "token" := VStr Sample.token_a; "user_id" := VStr "u3" ]}, db1).
Proof.
  destruct (proj2 (signin_spec (AuthRequest.make "old@example.com" "pw3")
                     Sample.db_legacy)
              Sample.legacy_user Sample.token_a Sample.token_b)
    as (db1 & user1 & H1 & _ & _ & _ & H2).
  - apply (bool_decide_unpack (NoDup (doc_id <$> Sample.db_legacy !!! "user"))).
    vm_compute. exact I.
  - reflexivity.
  - reflexivity.
  - reflexivity.
  - exists db1. split; [exact H1 | exact H2].
Defined.

(** ** Deleting overlays *)

(** A document found by a condition on [_id] is the first one with its own
    [_id]. *)
Lemma find_one_by_id_own (v : value) (c : collection) (d : document) :
  find_one [("_id", v)] c = Some d →
  find_one [("_id", id_value (doc_id d))] c = Some d.
Proof.
  intros H. destruct (find_one_Some _ _ _ H) as [_ Hm].
  rewrite matches_id in Hm. apply value_eqb_id in Hm. by subst v.
Qed.

(** C9 fails on the code.  [delete_overlay] evaluates
    [document_class.objectid_class(overlay_id)] before any lookup, and the
    document class has no such attribute: for every caller and every id,
    the owner of a stored overlay included, the handler raises
    AttributeError and the store is as it was.  It never answers 404 or
    403 and never removes an overlay. *)
Theorem delete_overlay_raises (e : env) (authorization : option string)
    (overlay_id : string) (user : document) (db : store) :
  get_current_user authorization db = Ok user →
  delete_overlay overlay_id user db = (Raised "AttributeError", db)
  ∧ run e (DeleteOverlay authorization overlay_id) db
    = (Raised "AttributeError", db).
Proof.
  intros Hauth. split; [reflexivity|].
  simpl. unfold depends. rewrite Hauth. reflexivity.
Qed.

(** The owner of the sample overlay asks for its deletion: the overlay is
    still stored. *)
Lemma delete_overlay_raises_witness :
  run Sample.sample_env
    (DeleteOverlay (Some ("Bearer " +:+ Sample.token_a)) "o1") Sample.db_overlays
  = (Raised "AttributeError", Sample.db_overlays)
  ∧ find_one [("_id", VStr "o1")] (Sample.db_overlays !!! "overlay")
    = Some (Sample.overlay_doc "o1" "u1" "s3cr3t")
  ∧ get (Sample.overlay_doc "o1" "u1" "s3cr3t") "owner_user_id"
    = Some (VStr (str_id (doc_id Sample.free_user))).
Proof.
  split; [|by split].
  apply (proj2 (delete_overlay_raises Sample.sample_env
                  (Some ("Bearer " +:+ Sample.token_a)) "o1" Sample.free_user
                  Sample.db_overlays eq_refl)).
Defined.

(** ** The type of a stored widget *)




(** [$set] keeps the [_id] and every field it does not name. *)
Lemma apply_set_get (upd : gmap string value) (d d' : document) (k : string) :
  apply_set upd d = Some d' → upd !! k = None →
  doc_id d' = doc_id d ∧ get d' k = get d k.
Proof.
  unfold apply_set. intros Hset Hk.
  destruct (upd !! "_id") as [v|] eqn:Hid.
  - destruct (value_eqb v (id_value (doc_id d))); [|discriminate].
    injection Hset as <-. split; [reflexivity|].
    unfold get. simpl. destruct (String.eqb k "_id"); [reflexivity|].
    apply lookup_union_r. by apply lookup_delete_None; right.
  - injection Hset as <-. split; [reflexivity|].
    unfold get. simpl. destruct (String.eqb k "_id"); [reflexivity|].
    by apply lookup_union_r.
Qed.




Lemma update_one_get (q : query) (set : document → option document)
    (c c' : collection) (k : string) :
  update_one q set c = Some c' →
  (∀ d d', set d = Some d' → doc_id d' = doc_id d ∧ get d' k = get d k) →
  ∀ (i : nat) (d : document),
    c !! i = Some d →
    ∃ d', c' !! i = Some d' ∧ doc_id d' = doc_id d ∧ get d' k = get d k.
Proof.
  intros Hupd Hset. revert c' Hupd.
  induction c as [|e c IH]; intros c' Hupd i d Hd; [done|].
  simpl in Hupd. destruct (matches q e).
  - destruct (set e) as [e'|] eqn:He; [|discriminate].
    injection Hupd as <-. destruct i as [|i].
    + injection Hd as <-. exists e'. split; [done|]. by apply Hset.
    + by exists d.
  - destruct (update_one q set c) as [c''|]; [|discriminate].
    injection Hupd as <-. destruct i as [|i].
    + by exists d.
    + by apply (IH c'').
Qed.







(** * Further properties of the handlers *)

(** ** Listings *)

Lemma elem_of_find (q : query) (c : collection) (d : document) :
  d ∈ find q c ↔ d ∈ c ∧ matches q d = true.
Proof.
  unfold find. rewrite !list_elem_of_In. apply List.filter_In.
Qed.

Lemma find_app (q : query) (l1 l2 : collection) :
  find q (l1 ++ l2) = find q l1 ++ find q l2.
Proof. apply List.filter_app. Qed.

(** A listing keeps every field of a document but [_id] and [id]. *)
Lemma pop_id_field (d : document) (k : string) :
  k ≠ "id" → k ≠ "_id" → pop_id d !! k = get d k.
Proof.
  intros Hid Hid'. unfold pop_id.
  rewrite lookup_insert_ne, lookup_delete_ne by done.
  symmetry. by apply get_field.
Qed.

Lemma pop_id_id (d : document) :
  pop_id d !! "id" = Some (VStr (str_id (doc_id d))) ∧ pop_id d !! "_id" = None.
Proof.
  unfold pop_id. split; [apply lookup_insert_eq|].
  rewrite lookup_insert_ne by done. apply lookup_delete_eq.
Qed.

Lemma matches_single (k : string) (v : value) (d : document) :
  matches [(k, v)] d = field_matches (get d k) v.
Proof. unfold matches. simpl. apply andb_true_r. Qed.

Lemma matches_str_field (k s : string) (d : document) :
  get d k = Some (VStr s) → matches [(k, VStr s)] d = true.
Proof.
  intros H. unfold matches. simpl. rewrite H, andb_true_r.
  by apply field_matches_str.
Qed.

(** X1.  [list_overlays] lists every stored overlay whose [owner_user_id]
    is the caller's id, each under [id] with its [_id] as a string and
    without [_id]; no entry it lists has another string as owner. *)
Theorem list_overlays_owned (user : document) (db : store) :
  ∃ listing,
    list_overlays user db = Ok listing
    ∧ (∀ o, o ∈ db !!! "overlay" →
            get o "owner_user_id" = Some (VStr (str_id (doc_id user))) →
            pop_id o ∈ listing)
    ∧ (∀ entry, entry ∈ listing →
         (∃ o, o ∈ db !!! "overlay" ∧ entry = pop_id o
               ∧ entry !! "id" = Some (VStr (str_id (doc_id o))))
         ∧ entry !! "_id" = None
         ∧ (∀ owner, entry !! "owner_user_id" = Some (VStr owner) →
                     owner = str_id (doc_id user))).
Proof.
  eexists. split; [reflexivity|]. split.
  - intros o Hin Howner. apply list_elem_of_fmap_2, elem_of_find.
    split; [done | by apply matches_str_field].
  - intros entry (o & -> & [Hin Hm]%elem_of_find)%list_elem_of_fmap.
    split; [|split].
    + exists o. split; [done|]. split; [done | apply pop_id_id].
    + apply pop_id_id.
    + intros owner Howner. rewrite pop_id_field in Howner by done.
      rewrite matches_single, Howner in Hm. by apply field_matches_str in Hm.
Qed.

(** The lookup of [list_widgets] by owner and [_id] finds nothing that the
    lookup by [_id] does not. *)
Lemma find_one_owner_id_None (owner v : value) (c : collection) :
  find_one [("_id", v)] c = None →
  find_one [("owner_user_id", owner); ("_id", v)] c = None.
Proof.
  intros H. destruct (find_one [("owner_user_id", owner); ("_id", v)] c)
    as [d|] eqn:E; [|done].
  apply find_one_Some in E as [Hin Hm].
  pose proof (find_one_None _ _ d H Hin) as Hno.
  unfold matches in *. simpl in *.
  apply andb_true_iff in Hm as [_ Hm]. congruence.
Qed.

(** [list_widgets] by its two effective lookups. *)
Lemma list_widgets_unfold (overlay_id : string) (user : document) (db : store) :
  list_widgets overlay_id user db =
    match or_else (find_one [("_id", VStr overlay_id)] (db !!! "overlay"))
                  (find_one [("id", VStr overlay_id)] (db !!! "overlay")) with
    | None => HTTPException 404 "Overlay not found"
    | Some o =>
        if negb (py_eq_str (get_or_none o "owner_user_id") (str_id (doc_id user)))
        then HTTPException 403 "Forbidden"
        else Ok (pop_id <$> find [("overlay_id", VStr overlay_id)] (db !!! "widget"))
    end.
Proof.
  unfold list_widgets, or_else.
  destruct (find_one [("_id", VStr overlay_id)] (db !!! "overlay")) eqn:E1;
    [reflexivity|].
  destruct (find_one [("id", VStr overlay_id)] (db !!! "overlay")); [reflexivity|].
  by rewrite find_one_owner_id_None.
Qed.

(** X2.  [list_widgets] looks the overlay up by [_id], then by the field
    [id], both as strings.  It raises 404 when neither finds one and 403
    when the overlay found has another owner than the caller; otherwise it
    lists every widget whose [overlay_id] is the given id, in store
    order. *)
Theorem list_widgets_spec (overlay_id : string) (user : document) (db : store) :
  let overlay := or_else (find_one [("_id", VStr overlay_id)] (db !!! "overlay"))
                         (find_one [("id", VStr overlay_id)] (db !!! "overlay")) in
  (overlay = None →
   list_widgets overlay_id user db = HTTPException 404 "Overlay not found")
  ∧ (∀ o, overlay = Some o →
          get o "owner_user_id" ≠ Some (VStr (str_id (doc_id user))) →
          list_widgets overlay_id user db = HTTPException 403 "Forbidden")
  ∧ (∀ o, overlay = Some o →
          get o "owner_user_id" = Some (VStr (str_id (doc_id user))) →
          list_widgets overlay_id user db
          = Ok (pop_id <$> find [("overlay_id", VStr overlay_id)] (db !!! "widget"))).
Proof.
  intros overlay. pose proof (list_widgets_unfold overlay_id user db) as Hunfold.
  fold overlay in Hunfold.
  split; [|split].
  - intros H. by rewrite Hunfold, H.
  - intros o H Howner. rewrite Hunfold, H.
    apply py_eq_str_get_false in Howner. by rewrite Howner.
  - intros o H Howner. rewrite Hunfold, H.
    apply py_eq_str_get in Howner. by rewrite Howner.
Qed.

(** The sample overlay's owner lists its one widget; the other user is
    refused. *)
Lemma list_widgets_spec_witness :
  list_widgets "o1" Sample.free_user Sample.db_overlays
  = Ok [pop_id (Sample.widget_doc "w1" "o1" "text")]
  ∧ list_widgets "o1" Sample.pro_user Sample.db_overlays
    = HTTPException 403 "Forbidden".
Proof.
  split.
  - by rewrite (proj2 (proj2 (list_widgets_spec "o1" Sample.free_user
                                Sample.db_overlays))
                  (Sample.overlay_doc "o1" "u1" "s3cr3t") eq_refl eq_refl).
  - apply (proj1 (proj2 (list_widgets_spec "o1" Sample.pro_user Sample.db_overlays))
             (Sample.overlay_doc "o1" "u1" "s3cr3t") eq_refl).
    discriminate.
Defined.

(** X3.  Whenever the owner's listing and the public endpoint both answer
    for an overlay id, they hold the same widgets in the same order. *)
Theorem listing_agrees (overlay_id secret : string) (user : document) (db : store)
    (listing : list (gmap string value)) (resp : overlay_resp) :
  list_widgets overlay_id user db = Ok listing →
  get_overlay_public overlay_id secret db = Ok resp →
  resp_widgets resp = listing.
Proof.
  intros Hl Hp. rewrite list_widgets_unfold in Hl.
  unfold get_overlay_public in Hp.
  destruct (or_else _ _) as [o|] eqn:Ho; [|discriminate].
  destruct (negb (py_eq_str (get_or_none o "secret_token") secret));
    [discriminate|].
  injection Hp as <-. simpl.
  destruct (negb (py_eq_str (get_or_none o "owner_user_id") (str_id (doc_id user))));
    [discriminate | congruence].
Qed.

Lemma listing_agrees_witness :
  resp_widgets
    (OverlayResp "o1" (VStr "Main") (VInt 1920) (VInt 1080)
       [pop_id (Sample.widget_doc "w1" "o1" "text")])
  = [pop_id (Sample.widget_doc "w1" "o1" "text")].
Proof.
  apply (listing_agrees "o1" "s3cr3t" Sample.free_user Sample.db_overlays).
  - vm_compute. reflexivity.
  - vm_compute. reflexivity.
Defined.

(** ** Updating widgets *)

(** X4.  [update_widget] raises 404 when neither the lookup by [_id] nor
    the one by the field [id] finds the widget.  It raises 403 when no
    overlay is found for the widget's [overlay_id], so a widget whose
    overlay is gone can be updated by no caller, and 403 when the overlay
    found has another owner than the caller.  In each of these cases the
    store is as it was. *)
Theorem update_widget_refused (paths : path_semantics) (widget_id : string)
    (payload : UpdateWidgetRequest.t) (user : document) (db : store) :
  let doc := or_else (find_one [("_id", VStr widget_id)] (db !!! "widget"))
                     (find_one [("id", VStr widget_id)] (db !!! "widget")) in
  (doc = None →
   update_widget paths widget_id payload user db
   = (HTTPException 404 "Widget not found", db))
  ∧ (∀ d, doc = Some d →
       let overlay :=
         or_else (find_one [("_id", get_or_none d "overlay_id")] (db !!! "overlay"))
                 (find_one [("id", get_or_none d "overlay_id")] (db !!! "overlay")) in
       (overlay = None →
        update_widget paths widget_id payload user db = (HTTPException 403 "Forbidden", db))
       ∧ (∀ o, overlay = Some o →
               get o "owner_user_id" ≠ Some (VStr (str_id (doc_id user))) →
               update_widget paths widget_id payload user db
               = (HTTPException 403 "Forbidden", db))).
Proof.
  intros doc. split.
  - intros Hd. unfold update_widget. fold doc. by rewrite Hd.
  - intros d Hd overlay. split.
    + intros Ho. unfold update_widget. fold doc. rewrite Hd. fold overlay.
      by rewrite Ho.
    + intros o Ho Howner. unfold update_widget. fold doc. rewrite Hd.
      fold overlay. rewrite Ho.
      apply py_eq_str_get_false in Howner. by rewrite Howner.
Qed.

(** The widget left behind by a deleted overlay, and the sample widget in
    the hands of another user. *)
Lemma update_widget_refused_witness :
  update_widget Sample.strict_paths "w2" Sample.move_widget Sample.free_user Sample.db_overlays
  = (HTTPException 403 "Forbidden", Sample.db_overlays)
  ∧ update_widget Sample.strict_paths "w1" Sample.move_widget Sample.pro_user Sample.db_overlays
    = (HTTPException 403 "Forbidden", Sample.db_overlays).
Proof.
  split.
  - apply (proj1 (proj2 (update_widget_refused Sample.strict_paths "w2" Sample.move_widget
                           Sample.free_user Sample.db_overlays)
                    (Sample.widget_doc "w2" "o9" "timer") eq_refl)).
    reflexivity.
  - apply (proj2 (proj2 (update_widget_refused Sample.strict_paths "w1" Sample.move_widget
                           Sample.pro_user Sample.db_overlays)
                    (Sample.widget_doc "w1" "o1" "text") eq_refl)
             (Sample.overlay_doc "o1" "u1" "s3cr3t") eq_refl).
    discriminate.
Defined.

(** X5.  Where widget identifiers are unique, a widget update by the
    overlay's owner succeeds and rewrites the one widget found, when the
    update is plain (it has a key, and its keys and the keys inside its
    values are not empty, dotted or operators), does not name [_id] and
    holds what the driver can encode: the fields of [updates] take the
    given values, its other fields and its [_id] stay, and every other
    widget and every other collection is as it was. *)
Theorem update_widget_applies (paths : path_semantics) (widget_id : string)
    (payload : UpdateWidgetRequest.t) (user : document) (db : store)
    (d o : document) :
  plain_update (UpdateWidgetRequest.updates payload) = true →
  encodable_update (UpdateWidgetRequest.updates payload) = true →
  NoDup (doc_id <$> db !!! "widget") →
  or_else (find_one [("_id", VStr widget_id)] (db !!! "widget"))
          (find_one [("id", VStr widget_id)] (db !!! "widget")) = Some d →
  or_else (find_one [("_id", get_or_none d "overlay_id")] (db !!! "overlay"))
          (find_one [("id", get_or_none d "overlay_id")] (db !!! "overlay")) = Some o →
  get o "owner_user_id" = Some (VStr (str_id (doc_id user))) →
  UpdateWidgetRequest.updates payload !! "_id" = None →
  ∃ l1 l2 d',
    db !!! "widget" = l1 ++ d :: l2
    ∧ update_widget paths widget_id payload user db
      = (Ok {[ "status" := VStr "ok" ]}, <["widget" := l1 ++ d' :: l2]> db)
    ∧ doc_id d' = doc_id d
    ∧ (∀ k v, UpdateWidgetRequest.updates payload !! k = Some v → get d' k = Some v)
    ∧ (∀ k, UpdateWidgetRequest.updates payload !! k = None → get d' k = get d k).
Proof.
  intros Hplain Henc Hnodup Hdoc Hoverlay Howner Hnoid.
  assert (∃ l1 l2, db !!! "widget" = l1 ++ d :: l2) as (l1 & l2 & Hw).
  { unfold or_else in Hdoc.
    destruct (find_one [("_id", VStr widget_id)] (db !!! "widget")) as [d0|] eqn:E.
    - injection Hdoc as ->.
      destruct (find_one_split _ _ _ E) as (l1 & l2 & ? & _). by exists l1, l2.
    - destruct (find_one_split _ _ _ Hdoc) as (l1 & l2 & ? & _). by exists l1, l2. }
  rewrite Hw in Hnodup. destruct (own_id_first l1 l2 d Hnodup) as [Hl1 Hd].
  set (d' := Document (doc_id d) (UpdateWidgetRequest.updates payload ∪ doc_fields d)).
  exists l1, l2, d'. split; [exact Hw|]. split; [|split; [done|split]].
  - unfold update_widget. rewrite Hdoc, Hoverlay.
    apply py_eq_str_get in Howner. rewrite Howner, Henc. simpl negb. cbv iota.
    rewrite Hw at 1. rewrite update_one_app by done.
    unfold set_document, apply_set. rewrite Hplain, Hnoid. reflexivity.
  - intros k v Hk. unfold get, d'. simpl.
    destruct (String.eqb_spec k "_id") as [->|Hne]; [congruence|].
    by apply lookup_union_Some_l.
  - intros k Hk. unfold get, d'. simpl.
    destruct (String.eqb k "_id"); [done|]. by apply lookup_union_r.
Qed.

(** The owner moves the sample widget. *)
Lemma update_widget_applies_witness :
  ∃ db' d',
    update_widget Sample.strict_paths "w1" Sample.move_widget Sample.free_user
      Sample.db_overlays
    = (Ok {[ "status" := VStr "ok" ]}, db')
    ∧ d' ∈ db' !!! "widget"
    ∧ get d' "x" = Some (VInt 40)
    ∧ get d' "type" = Some (VStr "text").
Proof.
  destruct (update_widget_applies Sample.strict_paths "w1" Sample.move_widget
              Sample.free_user Sample.db_overlays
              (Sample.widget_doc "w1" "o1" "text")
              (Sample.overlay_doc "o1" "u1" "s3cr3t"))
    as (l1 & l2 & d' & Hw & Hupd & Hid & Hset & Hkeep).
  - vm_compute. reflexivity.
  - vm_compute. reflexivity.
  - apply (bool_decide_unpack (NoDup (doc_id <$> Sample.db_overlays !!! "widget"))).
    vm_compute. exact I.
  - reflexivity.
  - reflexivity.
  - reflexivity.
  - reflexivity.
  - exists (<["widget" := l1 ++ d' :: l2]> Sample.db_overlays), d'.
    split; [exact Hupd|]. split; [|split].
    + rewrite lookup_total_insert_eq. apply elem_of_app. right. left.
    + by apply Hset.
    + rewrite Hkeep; reflexivity.
Defined.

(** ** Requests that end in an exception *)

(** X6.  A request that does not end well leaves the store exactly as it
    was: no handler writes before it raises. *)
Theorem run_error_keeps_store (e : env) (r : request) (db : store) :
  (run e r db).1 ≠ Ok tt → (run e r db).2 = db.
Proof.
  destruct r; simpl; try done.
  - unfold signup. destruct (find_one _ _); simpl; done.
  - unfold signin. destruct (find_one _ _); [|done].
    destruct (negb _); [|done]. destruct (update_one _ _ _); simpl; done.
  - unfold depends. destruct (get_current_user _ _); simpl; done.
  - unfold depends. destruct (get_current_user _ _); simpl; done.
  - unfold depends. by destruct (get_current_user _ _).
  - unfold depends. destruct (get_current_user _ _); simpl; done.
  - unfold depends. destruct (get_current_user _ _); simpl; try done.
    unfold create_widget. destruct (negb _); [done|].
    destruct (Widget_of_payload payload); simpl; done.
  - unfold depends. destruct (get_current_user _ _); simpl; try done.
    unfold update_widget. destruct (or_else _ _); [|done].
    destruct (or_else _ _); [|done]. destruct (negb (py_eq_str _ _)); [done|].
    destruct (negb (encodable_update _)); [done|].
    destruct (update_one _ _ _); simpl; done.
Qed.

(** A request without a token, and a widget type the plan does not have. *)
Lemma run_error_keeps_store_witness :
  (run Sample.sample_env
     (PostOverlays None (CreateOverlayRequest.make "Main" 1920 1080))
     Sample.db_overlays).2 = Sample.db_overlays
  ∧ (run Sample.sample_env
       (PostWidgets (Some ("Bearer " +:+ Sample.token_a))
          (Sample.widget_payload "o1" "youtube"))
       Sample.db_overlays).2 = Sample.db_overlays.
Proof.
  split; apply run_error_keeps_store; vm_compute; discriminate.
Defined.

(** ** Creating overlays *)

Lemma create_overlay_store (payload : CreateOverlayRequest.t) (user : document)
    (secret : string) (new_id : ident) (db : store) :
  create_overlay payload user secret new_id db
  = (Ok {[ "id" := VStr (str_id new_id); "secret_token" := VStr secret ]},
     <["overlay" :=
         (db !!! "overlay")
         ++ [Document new_id
               (delete "_id"
                  (model_dump
                     (Overlay.new (str_id (doc_id user))
                        (CreateOverlayRequest.name payload)
                        (CreateOverlayRequest.width payload)
                        (CreateOverlayRequest.height payload) secret)))]]> db).
Proof. reflexivity. Qed.

(** X7.  An overlay created under a string identifier that no stored
    overlay has is served by the public endpoint under the id and the
    secret [create_overlay] returned, with the payload's name and
    dimensions, and is refused with 404 under any other secret. *)
Theorem create_overlay_served (payload : CreateOverlayRequest.t) (user : document)
    (secret s : string) (db : store) :
  find_one [("_id", VStr s)] (db !!! "overlay") = None →
  (create_overlay payload user secret (StrId s) db).1
  = Ok {[ "id" := VStr s; "secret_token" := VStr secret ]}
  ∧ get_overlay_public s secret
      (create_overlay payload user secret (StrId s) db).2
    = Ok (OverlayResp s
            (VStr (CreateOverlayRequest.name payload))
            (VInt (CreateOverlayRequest.width payload))
            (VInt (CreateOverlayRequest.height payload))
            (pop_id <$> find [("overlay_id", VStr s)] (db !!! "widget")))
  ∧ (∀ guess, guess ≠ secret →
       get_overlay_public s guess
         (create_overlay payload user secret (StrId s) db).2
       = HTTPException 404 "Not found").
Proof.
  intros Hfresh. rewrite create_overlay_store. simpl fst. simpl snd.
  split; [reflexivity|].
  set (new := Document (StrId s) _).
  assert (Hfind : find_one [("_id", VStr s)] ((db !!! "overlay") ++ [new]) = Some new).
  { rewrite find_one_app by by apply find_one_None_Forall.
    unfold find_one. cbn [List.find]. rewrite matches_id. simpl.
    by rewrite String.eqb_refl. }
  assert (Hsecret : get_or_none new "secret_token" = VStr secret) by reflexivity.
  split.
  - unfold get_overlay_public.
    rewrite lookup_total_insert_eq, Hfind. cbn [or_else]. rewrite Hsecret.
    cbn [py_eq_str]. rewrite String.eqb_refl. cbn [negb].
    rewrite lookup_total_insert_ne by done. reflexivity.
  - intros guess Hguess. unfold get_overlay_public.
    rewrite lookup_total_insert_eq, Hfind. cbn [or_else]. rewrite Hsecret.
    cbn [py_eq_str].
    destruct (String.eqb_spec secret guess); [congruence | reflexivity].
Qed.

Lemma create_overlay_served_witness :
  get_overlay_public "o7" "c2VjcmV0"
    (create_overlay (CreateOverlayRequest.make "Second" 1280 720) Sample.pro_user
       "c2VjcmV0" (StrId "o7") Sample.db_overlays).2
  = Ok (OverlayResp "o7" (VStr "Second") (VInt 1280) (VInt 720) []).
Proof.
  apply (proj1 (proj2 (create_overlay_served
                         (CreateOverlayRequest.make "Second" 1280 720)
                         Sample.pro_user "c2VjcmV0" "o7" Sample.db_overlays
                         eq_refl))).
Defined.

(** X8.  After [create_overlay] the caller's listing of overlays is the
    one before with the new overlay added at the end, under the id that was
    returned; the listing of a caller with another id is as it was. *)
Theorem create_overlay_listed (payload : CreateOverlayRequest.t) (user : document)
    (secret : string) (new_id : ident) (db : store) :
  let db' := (create_overlay payload user secret new_id db).2 in
  (∃ listing entry,
     list_overlays user db = Ok listing
     ∧ list_overlays user db' = Ok (listing ++ [entry])
     ∧ entry !! "id" = Some (VStr (str_id new_id))
     ∧ entry !! "name" = Some (VStr (CreateOverlayRequest.name payload))
     ∧ entry !! "secret_token" = Some (VStr secret))
  ∧ (∀ other, str_id (doc_id other) ≠ str_id (doc_id user) →
              list_overlays other db' = list_overlays other db).
Proof.
  intros db'. unfold db'. rewrite create_overlay_store. simpl snd.
  set (new := Document new_id _).
  assert (Hnew : ∀ who, matches [("owner_user_id", VStr (str_id (doc_id who)))] new
                        = String.eqb (str_id (doc_id user)) (str_id (doc_id who))).
  { intros who. rewrite matches_single.
    change (get new "owner_user_id") with (Some (VStr (str_id (doc_id user)))).
    simpl. apply orb_false_r. }
  split.
  - exists (pop_id <$> find [("owner_user_id", VStr (str_id (doc_id user)))]
                            (db !!! "overlay")), (pop_id new).
    split; [reflexivity|]. split; [|by repeat split].
    unfold list_overlays. rewrite lookup_total_insert_eq, find_app, fmap_app.
    unfold find at 2. cbn [List.filter]. by rewrite Hnew, String.eqb_refl.
  - intros other Hother. unfold list_overlays.
    rewrite lookup_total_insert_eq, find_app.
    unfold find at 2. cbn [List.filter]. rewrite Hnew.
    destruct (String.eqb_spec (str_id (doc_id user)) (str_id (doc_id other)));
      [congruence|].
    by rewrite app_nil_r.
Qed.

Lemma create_overlay_listed_witness :
  list_overlays Sample.free_user
    (create_overlay (CreateOverlayRequest.make "Second" 1280 720) Sample.pro_user
       "c2VjcmV0" (ObjectId "aa") Sample.db_overlays).2
  = list_overlays Sample.free_user Sample.db_overlays.
Proof.
  apply (proj2 (create_overlay_listed (CreateOverlayRequest.make "Second" 1280 720)
                  Sample.pro_user "c2VjcmV0" (ObjectId "aa") Sample.db_overlays)).
  discriminate.
Defined.

(** ** Documents stored under an ObjectId *)

Lemma objectid_only_not_found (c : collection) (s : string) :
  objectid_only c = true →
  find_one [("_id", VStr s)] c = None ∧ find_one [("id", VStr s)] c = None.
Proof.
  unfold objectid_only, find_one. induction c as [|d c IH]; [done|].
  cbn [forallb List.find]. intros [Hd Hc]%andb_true_iff.
  destruct (IH Hc) as [IH1 IH2]. rewrite matches_id, matches_single.
  destruct (doc_id d) as [h|t] eqn:Hid; [|discriminate].
  apply bool_decide_eq_true_1 in Hd.
  unfold get. simpl. rewrite Hd. simpl. done.
Qed.

(** C5 fails on the code.  An overlay is stored under an ObjectId when the
    store assigns the identifier, and [get_overlay_public] compares [_id]
    with the id of the path as a string.  So for an overlay of such a
    collection, the request with the overlay's own id, [str(_id)] as
    [create_overlay] returns it, and its own secret is answered 404: the
    overlay exists and the secret matches, and nothing is served. *)
Theorem get_overlay_public_misses_objectid (db : store) (o : document)
    (secret : string) :
  objectid_only (db !!! "overlay") = true →
  o ∈ db !!! "overlay" →
  get o "secret_token" = Some (VStr secret) →
  get_overlay_public (str_id (doc_id o)) secret db = HTTPException 404 "Not found".
Proof.
  intros Hc _ _. unfold get_overlay_public.
  destruct (objectid_only_not_found _ (str_id (doc_id o)) Hc) as [-> ->].
  reflexivity.
Qed.

Lemma get_overlay_public_misses_objectid_witness :
  str_id (doc_id Sample.overlay_by_oid) = "650f1a2b3c4d5e6f70819203"
  ∧ get_overlay_public "650f1a2b3c4d5e6f70819203" "s3cr3t" Sample.db_objectid
    = HTTPException 404 "Not found".
Proof.
  split; [reflexivity|].
  apply (get_overlay_public_misses_objectid Sample.db_objectid
           Sample.overlay_by_oid "s3cr3t").
  - vm_compute. reflexivity.
  - unfold Sample.db_objectid. vm_compute. left.
  - reflexivity.
Defined.

(** X9.  The public endpoint, the widget listing and the widget update
    compare [_id] with the id of the path as a string and never convert it.
    So in a collection whose documents are all stored under an ObjectId and
    have no field [id], they find nothing: each raises 404 for every id.
    In particular an overlay that [create_overlay] stores under an ObjectId
    is not served under the id the handler returned for it. *)
Theorem objectid_documents_not_found (db : store) :
  (objectid_only (db !!! "overlay") = true →
   ∀ overlay_id secret user,
     get_overlay_public overlay_id secret db = HTTPException 404 "Not found"
     ∧ list_widgets overlay_id user db = HTTPException 404 "Overlay not found")
  ∧ (objectid_only (db !!! "widget") = true →
     ∀ paths widget_id payload user,
       update_widget paths widget_id payload user db
       = (HTTPException 404 "Widget not found", db))
  ∧ (objectid_only (db !!! "overlay") = true →
     ∀ payload user secret hex,
       (create_overlay payload user secret (ObjectId hex) db).1
       = Ok {[ "id" := VStr hex; "secret_token" := VStr secret ]}
       ∧ get_overlay_public hex secret
           (create_overlay payload user secret (ObjectId hex) db).2
         = HTTPException 404 "Not found").
Proof.
  assert (Hpub : ∀ db0 : store, objectid_only (db0 !!! "overlay") = true →
            ∀ overlay_id secret,
              get_overlay_public overlay_id secret db0
              = HTTPException 404 "Not found").
  { intros db0 Hc overlay_id secret. unfold get_overlay_public.
    destruct (objectid_only_not_found _ overlay_id Hc) as [-> ->]. reflexivity. }
  split; [|split].
  - intros Hc overlay_id secret user. split; [by apply Hpub|].
    rewrite list_widgets_unfold.
    by destruct (objectid_only_not_found _ overlay_id Hc) as [-> ->].
  - intros Hc paths widget_id payload user. unfold update_widget.
    by destruct (objectid_only_not_found _ widget_id Hc) as [-> ->].
  - intros Hc payload user secret hex. split; [reflexivity|].
    apply Hpub. rewrite create_overlay_store. simpl snd.
    rewrite lookup_total_insert_eq. unfold objectid_only.
    rewrite forallb_app. apply andb_true_iff. split; [exact Hc|].
    reflexivity.
Qed.

Lemma objectid_documents_not_found_witness :
  get_overlay_public "aa" "c2VjcmV0"
    (create_overlay (CreateOverlayRequest.make "Second" 1280 720) Sample.pro_user
       "c2VjcmV0" (ObjectId "aa") ∅).2
  = HTTPException 404 "Not found".
Proof.
  refine (proj2 (proj2 (proj2 (objectid_documents_not_found ∅)) _
                   (CreateOverlayRequest.make "Second" 1280 720) Sample.pro_user
                   "c2VjcmV0" "aa")).
  vm_compute. reflexivity.
Defined.

(** ** After signing up *)

Lemma signup_store (payload : AuthRequest.t) (token : string) (new_id : ident)
    (db : store) :
  find_one [("email", VStr (AuthRequest.email payload))] (db !!! "user") = None →
  signup payload token new_id db
  = (Ok {[ "token" := VStr token; "user_id" := VStr (str_id new_id) ]},
     <["user" :=
         (db !!! "user")
         ++ [Document new_id
               (delete "_id"
                  (model_dump
                     (User.new (AuthRequest.email payload)
                        (Some (AuthRequest.password payload)) (Some token))))]]> db).
Proof. intros H. unfold signup. rewrite H. reflexivity. Qed.

(** A condition more only narrows a query. *)
Lemma matches_cons_false (k : string) (v : value) (q : query) (d : document) :
  matches [(k, v)] d = false → matches ((k, v) :: q) d = false.
Proof.
  rewrite matches_single. unfold matches. cbn [forallb fst snd]. by intros ->.
Qed.

(** No token of [secrets.token_hex] holds the word the auth dependency
    removes. *)
Lemma token_hex_no_bearer (t : string) :
  forallb is_hex_digit (String.list_ascii_of_string t) = true →
  occurs "Bearer " t = false.
Proof.
  induction t as [|c t IH]; [reflexivity|].
  cbn [String.list_ascii_of_string forallb occurs String.prefix].
  intros [Hc Ht]%andb_true_iff. rewrite (IH Ht), orb_false_r.
  match goal with
  | |- context [Ascii.ascii_dec ?b c] => destruct (Ascii.ascii_dec b c) as [<-|]
  end; [discriminate Hc | reflexivity].
Qed.

(** X10.  After a successful [signup], [signin] with the same email and
    password returns the token and the user id that [signup] returned, and
    leaves the store as [signup] left it. *)
Theorem signup_then_signin (payload : AuthRequest.t) (token token2 : string)
    (new_id : ident) (db : store) :
  find_one [("email", VStr (AuthRequest.email payload))] (db !!! "user") = None →
  is_token_hex 16 token = true →
  (signup payload token new_id db).1
  = Ok {[ "token" := VStr token; "user_id" := VStr (str_id new_id) ]}
  ∧ signin payload token2 (signup payload token new_id db).2
    = (Ok {[ "token" := VStr token; "user_id" := VStr (str_id new_id) ]},
       (signup payload token new_id db).2).
Proof.
  intros Hnone Htok. rewrite (signup_store _ _ _ _ Hnone). simpl fst. simpl snd.
  split; [reflexivity|].
  set (new := Document new_id _).
  unfold signin. rewrite lookup_total_insert_eq.
  rewrite find_one_app.
  2:{ apply Forall_forall. intros d Hd. apply matches_cons_false.
      by apply (find_one_None _ (db !!! "user")). }
  assert (Hm : matches [("email", VStr (AuthRequest.email payload));
                        ("password_hash", VStr (AuthRequest.password payload))]
                       new = true).
  { unfold matches. cbn [forallb fst snd].
    change (get new "email") with (Some (VStr (AuthRequest.email payload))).
    change (get new "password_hash")
      with (Some (VStr (AuthRequest.password payload))).
    simpl. by rewrite !String.eqb_refl. }
  unfold find_one. cbn [List.find]. rewrite Hm.
  change (get_or_none new "auth_token") with (VStr token).
  unfold py_or. rewrite (token_hex_truthy _ Htok). reflexivity.
Qed.

Lemma signup_then_signin_witness :
  signin (AuthRequest.make "new@example.com" "pw") Sample.token_a
    (signup (AuthRequest.make "new@example.com" "pw") Sample.token_b
       (ObjectId "aa") Sample.db_legacy).2
  = (Ok {[ "token" := VStr Sample.token_b; "user_id" := VStr "aa" ]},
     (signup (AuthRequest.make "new@example.com" "pw") Sample.token_b
        (ObjectId "aa") Sample.db_legacy).2).
Proof.
  apply (signup_then_signin (AuthRequest.make "new@example.com" "pw")
           Sample.token_b Sample.token_a (ObjectId "aa") Sample.db_legacy);
    reflexivity.
Defined.

(** X11.  The token a successful [signup] returns authenticates: when no
    earlier user holds the same token, the auth dependency given the header
    ["Bearer "] followed by the token returns the user just stored, and so
    it does given the bare token. *)
Theorem signup_then_authenticate (payload : AuthRequest.t) (token : string)
    (new_id : ident) (db : store) :
  find_one [("email", VStr (AuthRequest.email payload))] (db !!! "user") = None →
  find_one [("auth_token", VStr token)] (db !!! "user") = None →
  is_token_hex 16 token = true →
  ∃ user,
    get_current_user (Some ("Bearer " +:+ token)) (signup payload token new_id db).2
    = Ok user
    ∧ get_current_user (Some token) (signup payload token new_id db).2 = Ok user
    ∧ doc_id user = new_id
    ∧ get user "email" = Some (VStr (AuthRequest.email payload))
    ∧ get user "auth_token" = Some (VStr token).
Proof.
  intros Hnone Hunused Htok. rewrite (signup_store _ _ _ _ Hnone). simpl snd.
  set (new := Document new_id _). exists new.
  pose proof (token_hex_truthy _ Htok) as Htruthy.
  apply andb_true_iff in Htok as [_ Hhex].
  pose proof (token_hex_no_bearer _ Hhex) as Hocc.
  assert (Hfind : find_one [("auth_token", VStr token)] ((db !!! "user") ++ [new])
                  = Some new).
  { rewrite find_one_app by by apply find_one_None_Forall.
    unfold find_one. cbn [List.find]. rewrite matches_single.
    change (get new "auth_token") with (Some (VStr token)).
    simpl. by rewrite String.eqb_refl. }
  split; [|split; [|by repeat split]].
  - unfold get_current_user.
    assert (negb (truthy (VStr ("Bearer " +:+ token))) = false) as ->
      by reflexivity.
    rewrite (replace_bearer_prefix _ Hocc), lookup_total_insert_eq, Hfind.
    reflexivity.
  - unfold get_current_user. rewrite Htruthy. cbn [negb].
    rewrite (replace_bearer_absent _ Hocc), lookup_total_insert_eq, Hfind.
    reflexivity.
Qed.

Lemma signup_then_authenticate_witness :
  ∃ user,
    get_current_user (Some "Bearer 00112233445566778899aabbccddeeff")
      (signup (AuthRequest.make "new@example.com" "pw")
         "00112233445566778899aabbccddeeff" (ObjectId "aa") Sample.db_legacy).2
    = Ok user
    ∧ doc_id user = ObjectId "aa".
Proof.
  destruct (signup_then_authenticate (AuthRequest.make "new@example.com" "pw")
              "00112233445566778899aabbccddeeff" (ObjectId "aa") Sample.db_legacy)
    as (user & H & _ & Hid & _); [reflexivity | reflexivity | reflexivity |].
  by exists user.
Defined.

(** ** What signing in changes *)

(** X12.  [signin] writes nothing but a token: every collection other than
    the users is as it was, and every user is still stored at its place,
    under its [_id] and with every field other than [auth_token] as it was.
    For a user that already has a token it returns that token and leaves
    the store as it was. *)
Theorem signin_writes_token_only (payload : AuthRequest.t) (token_hex : string)
    (db : store) :
  (∀ name, name ≠ "user" →
           (signin payload token_hex db).2 !!! name = db !!! name)
  ∧ (∀ (i : nat) u, (db !!! "user") !! i = Some u →
       ∃ u', ((signin payload token_hex db).2 !!! "user") !! i = Some u'
             ∧ doc_id u' = doc_id u
             ∧ (∀ k, k ≠ "auth_token" → get u' k = get u k))
  ∧ (∀ user,
       find_one [("email", VStr (AuthRequest.email payload));
                 ("password_hash", VStr (AuthRequest.password payload))]
                (db !!! "user") = Some user →
       truthy (get_or_none user "auth_token") = true →
       signin payload token_hex db
       = (Ok {[ "token" := get_or_none user "auth_token";
                "user_id" := VStr (str_id (doc_id user)) ]}, db)).
Proof.
  split; [|split].
  - intros name Hname. unfold signin. destruct (find_one _ _); [|done].
    destruct (negb _); [|done]. destruct (update_one _ _ _); [|done].
    simpl. by rewrite lookup_total_insert_ne.
  - intros i u Hu. unfold signin.
    destruct (find_one _ _) as [user|]; [|by exists u].
    destruct (negb _); [|by exists u].
    destruct (update_one _ _ _) as [users|] eqn:Hupd; [|by exists u].
    simpl. rewrite lookup_total_insert_eq.
    assert (∀ k, k ≠ "auth_token" →
              ∃ u', users !! i = Some u' ∧ doc_id u' = doc_id u ∧ get u' k = get u k)
      as Hk.
    { intros k Hne. apply (update_one_get _ _ _ _ _ Hupd); [|done].
      intros d d' Hset. apply (apply_set_get _ _ _ _ Hset).
      by apply lookup_singleton_ne. }
    destruct (Hk "email" ltac:(done)) as (u' & Hu' & Hid & _).
    exists u'. split; [done|]. split; [done|].
    intros k Hne. destruct (Hk k Hne) as (u'' & Hu'' & _ & Hget). congruence.
  - intros user Hfind Htruthy. unfold signin. rewrite Hfind. unfold py_or.
    rewrite Htruthy. reflexivity.
Qed.

Lemma signin_writes_token_only_witness :
  signin (AuthRequest.make "free@example.com" "pw1") Sample.token_b Sample.db_legacy
  = (Ok {[ "token" := VStr Sample.token_a; "user_id" := VStr "u1" ]},
     Sample.db_legacy).
Proof.
  apply (proj2 (proj2 (signin_writes_token_only
                         (AuthRequest.make "free@example.com" "pw1")
                         Sample.token_b Sample.db_legacy))
           Sample.free_user); reflexivity.
Defined.

(** ** After creating a widget *)

Lemma create_widget_store (payload : CreateWidgetRequest.t) (user : document)
    (new_id : ident) (db : store) :
  can_use_widget_type user (CreateWidgetRequest.type payload) db = true →
  literal WidgetType (CreateWidgetRequest.type payload) = true →
  ∃ new,
    create_widget payload user new_id db
    = (Ok {[ "id" := VStr (str_id new_id) ]},
       <["widget" := (db !!! "widget") ++ [new]]> db)
    ∧ doc_id new = new_id
    ∧ get new "overlay_id" = Some (VStr (CreateWidgetRequest.overlay_id payload))
    ∧ get new "type" = Some (VStr (CreateWidgetRequest.type payload)).
Proof.
  intros Hgate Htype. unfold create_widget, Widget_of_payload.
  rewrite Hgate, Htype. simpl. eexists. split; [reflexivity|]. by repeat split.
Qed.

(** X13.  When the owner's listing of an overlay's widgets answers, a
    widget then created for that overlay is listed after the others, under
    the id [create_widget] returned and with the payload's type; the
    listing of any other overlay id is as it was. *)
Theorem create_widget_listed (payload : CreateWidgetRequest.t)
    (user owner : document) (new_id : ident) (db : store)
    (listing : list (gmap string value)) :
  can_use_widget_type user (CreateWidgetRequest.type payload) db = true →
  literal WidgetType (CreateWidgetRequest.type payload) = true →
  list_widgets (CreateWidgetRequest.overlay_id payload) owner db = Ok listing →
  (∃ entry,
     list_widgets (CreateWidgetRequest.overlay_id payload) owner
       (create_widget payload user new_id db).2
     = Ok (listing ++ [entry])
     ∧ entry !! "id" = Some (VStr (str_id new_id))
     ∧ entry !! "type" = Some (VStr (CreateWidgetRequest.type payload)))
  ∧ (∀ other caller,
       other ≠ CreateWidgetRequest.overlay_id payload →
       list_widgets other caller (create_widget payload user new_id db).2
       = list_widgets other caller db).
Proof.
  intros Hgate Htype Hlist.
  destruct (create_widget_store payload user new_id db Hgate Htype)
    as (new & -> & Hid & Hov & Hty).
  simpl snd. split.
  - exists (pop_id new). split; [|split].
    + rewrite list_widgets_unfold in Hlist. rewrite list_widgets_unfold.
      rewrite lookup_total_insert_ne by done. rewrite lookup_total_insert_eq.
      destruct (or_else _ _) as [o|]; [|discriminate].
      destruct (negb _); [discriminate|]. injection Hlist as <-.
      rewrite find_app, fmap_app. unfold find at 2. cbn [List.filter].
      by rewrite (matches_str_field _ _ _ Hov).
    + rewrite <- Hid. apply pop_id_id.
    + by rewrite pop_id_field.
  - intros other caller Hother. rewrite !list_widgets_unfold.
    rewrite lookup_total_insert_ne by done. rewrite lookup_total_insert_eq.
    rewrite find_app. unfold find at 2. cbn [List.filter].
    rewrite matches_single, Hov.
    assert (field_matches (Some (VStr (CreateWidgetRequest.overlay_id payload)))
              (VStr other) = false) as ->.
    { destruct (field_matches _ _) eqn:E; [|done].
      apply field_matches_str in E. congruence. }
    by rewrite app_nil_r.
Qed.

Lemma create_widget_listed_witness :
  ∃ entry,
    list_widgets "o1" Sample.free_user
      (create_widget (Sample.widget_payload "o1" "timer") Sample.free_user
         (StrId "w3") Sample.db_overlays).2
    = Ok [pop_id (Sample.widget_doc "w1" "o1" "text"); entry]
    ∧ entry !! "id" = Some (VStr "w3").
Proof.
  destruct (proj1 (create_widget_listed (Sample.widget_payload "o1" "timer")
                     Sample.free_user Sample.free_user (StrId "w3")
                     Sample.db_overlays
                     [pop_id (Sample.widget_doc "w1" "o1" "text")]
                     eq_refl eq_refl eq_refl))
    as (entry & H & Hid & _).
  by exists entry.
Defined.

(** ** Messages *)

(** X14.  [get_i18n] answers the Spanish table for ["es"] and the English
    table for every other locale, known or not; whatever the locale, the
    table has a message for exactly the keys of the English one. *)
Theorem get_i18n_fallback (locale : string) :
  (locale ≠ "es" → get_i18n locale = get_i18n "en")
  ∧ get_i18n "en" !! "title" = Some "Stream Overlays"
  ∧ get_i18n "es" !! "title" = Some "Superposiciones de Stream"
  ∧ (∀ key, is_Some (get_i18n locale !! key) ↔ is_Some (get_i18n "en" !! key)).
Proof.
  assert (Hother : locale ≠ "es" → get_i18n locale = get_i18n "en").
  { intros Hes. unfold get_i18n, I18N_MESSAGES.
    destruct (decide (locale = "en")) as [->|Hen]; [reflexivity|].
    rewrite lookup_insert_ne by congruence.
    rewrite lookup_singleton_ne by congruence. reflexivity. }
  split; [exact Hother|]. split; [reflexivity|]. split; [reflexivity|].
  intros key. destruct (decide (locale = "es")) as [->|Hes].
  - rewrite <- !elem_of_dom.
    assert (dom (get_i18n "es") = dom (get_i18n "en")) as ->; [|done].
    vm_compute. reflexivity.
  - by rewrite Hother.
Qed.

Lemma get_i18n_fallback_witness : get_i18n "fr" = get_i18n "en".
Proof. apply (proj1 (get_i18n_fallback "fr")). discriminate. Defined.

(** ** Invariants of the store *)

Lemma apply_set_id (upd : gmap string value) (d d' : document) :
  apply_set upd d = Some d' → doc_id d' = doc_id d.
Proof.
  unfold apply_set. destruct (upd !! "_id").
  - destruct (value_eqb _ _); [|discriminate]. by intros [= <-].
  - by intros [= <-].
Qed.

Lemma set_document_id (paths : path_semantics) (upd : gmap string value)
    (d d' : document) :
  set_document paths upd d = Some d' → doc_id d' = doc_id d.
Proof.
  unfold set_document. destruct (plain_update upd).
  - apply apply_set_id.
  - apply set_paths_id.
Qed.

Lemma update_one_ids (q : query) (set : document → option document)
    (c c' : collection) :
  (∀ d d', set d = Some d' → doc_id d' = doc_id d) →
  update_one q set c = Some c' → doc_id <$> c' = doc_id <$> c.
Proof.
  intros Hset. revert c'. induction c as [|d c IH]; intros c'; simpl.
  - by intros [= <-].
  - destruct (matches q d).
    + destruct (set d) as [d'|] eqn:E; [|discriminate].
      intros [= <-]. simpl. f_equal. by apply Hset.
    + destruct (update_one q set c) as [c''|]; [|discriminate].
      intros [= <-]. simpl. f_equal. by apply IH.
Qed.

Lemma delete_one_NoDup (q : query) (c : collection) :
  NoDup (doc_id <$> c) → NoDup (doc_id <$> delete_one q c).
Proof.
  induction c as [|d c IH]; [done|]. simpl.
  intros [Hd Hc]%NoDup_cons. destruct (matches q d); [done|].
  simpl. apply NoDup_cons. split; [|by apply IH].
  intros (e & He & Hin)%list_elem_of_fmap. apply Hd.
  apply list_elem_of_fmap. exists e. split; [done|].
  clear -Hin. induction c as [|x c IHc]; [done|]. simpl in Hin.
  destruct (matches q x); [by right|].
  apply elem_of_cons in Hin as [->|Hin]; [left | right; by apply IHc].
Qed.

Lemma unique_ids_insert (db : store) (name : string) (c : collection) :
  unique_ids db → NoDup (doc_id <$> c) → unique_ids (<[name := c]> db).
Proof.
  intros Hdb Hc other. destruct (decide (name = other)) as [->|Hne].
  - by rewrite lookup_total_insert_eq.
  - rewrite lookup_total_insert_ne by done. apply Hdb.
Qed.

Lemma create_document_unique `{BaseModel A} (name : string) (data : A)
    (new_id : ident) (db : store) :
  unique_ids db → new_id ∉ doc_id <$> db !!! name →
  unique_ids (create_document name data new_id db).2.
Proof.
  intros Hdb Hfresh. unfold create_document. simpl.
  apply unique_ids_insert; [done|].
  rewrite fmap_app. apply NoDup_app. split; [apply Hdb|]. split.
  - intros i Hi [->|[]%elem_of_nil]%elem_of_cons. by apply Hfresh.
  - apply NoDup_singleton.
Qed.

(** X15.  Identifiers stay unique: when no two documents of a collection
    share an [_id], and the identifier the store assigns to an insert is
    not in use in the collection the request inserts into, no two documents
    share an [_id] after the request either. *)
Theorem run_keeps_unique_ids (e : env) (r : request) (db : store) :
  unique_ids db →
  (∀ name, inserts_into r = Some name → env_new_id e ∉ doc_id <$> db !!! name) →
  unique_ids (run e r db).2.
Proof.
  intros Hdb Hfresh. destruct r; simpl; try done.
  - unfold signup. destruct (find_one _ _); [done|].
    apply (create_document_unique "user"); [done | by apply Hfresh].
  - unfold signin. destruct (find_one _ _); [|done].
    destruct (negb _); [|done].
    destruct (update_one _ _ _) as [users|] eqn:Hupd; [|done].
    simpl. apply unique_ids_insert; [done|].
    rewrite (update_one_ids _ _ _ _ (apply_set_id _) Hupd). apply Hdb.
  - unfold depends. by destruct (get_current_user _ _).
  - unfold depends. destruct (get_current_user _ _); [|done|done].
    apply (create_document_unique "overlay"); [done | by apply Hfresh].
  - unfold depends. by destruct (get_current_user _ _).
  - unfold depends. by destruct (get_current_user _ _).
  - unfold depends. destruct (get_current_user _ _); [|done|done].
    unfold create_widget. destruct (negb _); [done|].
    destruct (Widget_of_payload payload); [|done].
    apply (create_document_unique "widget"); [done | by apply Hfresh].
  - unfold depends. destruct (get_current_user _ _); [|done|done].
    unfold update_widget. destruct (or_else _ _); [|done].
    destruct (or_else _ _); [|done]. destruct (negb (py_eq_str _ _)); [done|].
    destruct (negb (encodable_update _)); [done|].
    destruct (update_one _ _ _) as [widgets|] eqn:Hupd; [|done].
    simpl. apply unique_ids_insert; [done|].
    rewrite (update_one_ids _ _ _ _ (set_document_id _ _) Hupd). apply Hdb.
Qed.

Lemma run_keeps_unique_ids_witness :
  NoDup (doc_id <$>
           (run Sample.sample_env
              (PostSignup (AuthRequest.make "new@example.com" "pw"))
              Sample.db_legacy).2 !!! "user").
Proof.
  apply (run_keeps_unique_ids Sample.sample_env
           (PostSignup (AuthRequest.make "new@example.com" "pw"))
           Sample.db_legacy).
  - intros name.
    destruct (decide (name = "user")) as [->|Hne].
    + apply (bool_decide_unpack (NoDup (doc_id <$> Sample.db_legacy !!! "user"))).
      vm_compute. exact I.
    + unfold Sample.db_legacy. rewrite lookup_total_singleton_ne by done.
      apply NoDup_nil_2.
  - intros name [= <-].
    apply (bool_decide_unpack
             (ObjectId "aa" ∉ doc_id <$> Sample.db_legacy !!! "user")).
    vm_compute. exact I.
Defined.

Lemma update_one_get_rev (q : query) (set : document → option document)
    (c c' : collection) (k : string) :
  update_one q set c = Some c' →
  (∀ d d', set d = Some d' → get d' k = get d k) →
  ∀ (i : nat) (d' : document),
    c' !! i = Some d' → ∃ d, c !! i = Some d ∧ get d' k = get d k.
Proof.
  intros Hupd Hset. revert c' Hupd.
  induction c as [|e c IH]; intros c' Hupd i d' Hd'; simpl in Hupd.
  - injection Hupd as <-. done.
  - destruct (matches q e).
    + destruct (set e) as [e'|] eqn:He; [|discriminate].
      injection Hupd as <-. destruct i as [|i].
      * injection Hd' as <-. exists e. split; [done|]. by apply Hset.
      * by exists d'.
    + destruct (update_one q set c) as [c''|]; [|discriminate].
      injection Hupd as <-. destruct i as [|i].
      * by exists d'.
      * by apply (IH c'').
Qed.

(** X16.  Emails stay unique: when no two users have the same string as
    email, no request makes two users have the same one.  [signup] refuses
    an email that is stored, and nothing else writes an email. *)
Theorem run_keeps_unique_emails (e : env) (r : request) (db : store) :
  unique_emails (db !!! "user") →
  unique_emails ((run e r db).2 !!! "user").
Proof.
  intros Hdb.
  assert (Hother : ∀ (name : string) (c : collection), name ≠ "user" →
            unique_emails (<[name := c]> db !!! "user")).
  { intros name c Hne. by rewrite lookup_total_insert_ne. }
  destruct r; simpl; try done.
  - unfold signup.
    destruct (find_one _ _) as [existing|] eqn:Hfind; [done|].
    unfold create_document. simpl. rewrite lookup_total_insert_eq.
    set (new := Document _ _).
    assert (Hnew : ∀ u, u ∈ db !!! "user" →
              get u "email" ≠ Some (VStr (AuthRequest.email payload))).
    { intros u Hu Hemail.
      pose proof (find_one_None _ _ u Hfind Hu) as Hno.
      by rewrite (matches_str_field _ _ _ Hemail) in Hno. }
    assert (Hlast : ∀ (i : nat) u, ((db !!! "user") ++ [new]) !! i = Some u →
              (i < length (db !!! "user"))%nat ∧ (db !!! "user") !! i = Some u
              ∨ i = length (db !!! "user") ∧ u = new).
    { intros i u Hi. apply lookup_app_Some in Hi as [Hi|[Hge Hi]].
      - left. split; [by eapply lookup_lt_Some | done].
      - right. apply list_lookup_singleton_Some in Hi as [Hz <-].
        split; [lia | done]. }
    intros i j u v em Hi Hj Hu Hv.
    destruct (Hlast i u Hi) as [[Hlti Hi']|[-> ->]],
             (Hlast j v Hj) as [[Hltj Hj']|[-> ->]].
    + by apply (Hdb i j u v em).
    + exfalso. apply (Hnew u); [by eapply list_elem_of_lookup_2|].
      rewrite Hu, <- Hv. reflexivity.
    + exfalso. apply (Hnew v); [by eapply list_elem_of_lookup_2|].
      rewrite Hv, <- Hu. reflexivity.
    + reflexivity.
  - unfold signin. destruct (find_one _ _) as [d0|]; [|done].
    destruct (negb _); [|done].
    destruct (update_one _ _ _) as [users|] eqn:Hupd; [|done].
    simpl. rewrite lookup_total_insert_eq.
    intros i j u v em Hi Hj Hu Hv.
    assert (∀ d d', apply_set {[ "auth_token" := py_or (get_or_none d0 "auth_token")
                                                   (VStr (env_token_hex e)) ]} d
                    = Some d' → get d' "email" = get d "email") as Hset.
    { intros d d' Hd. by apply (apply_set_get _ _ _ "email" Hd). }
    destruct (update_one_get_rev _ _ _ _ "email" Hupd Hset i u Hi)
      as (u0 & Hi0 & Hu0).
    destruct (update_one_get_rev _ _ _ _ "email" Hupd Hset j v Hj)
      as (v0 & Hj0 & Hv0).
    apply (Hdb i j u0 v0 em); congruence.
  - unfold depends. by destruct (get_current_user _ _).
  - unfold depends. destruct (get_current_user _ _); [|done|done].
    by apply Hother.
  - unfold depends. by destruct (get_current_user _ _).
  - unfold depends. by destruct (get_current_user _ _).
  - unfold depends. destruct (get_current_user _ _); [|done|done].
    unfold create_widget. destruct (negb _); [done|].
    destruct (Widget_of_payload payload); [|done]. by apply Hother.
  - unfold depends. destruct (get_current_user _ _); [|done|done].
    unfold update_widget. destruct (or_else _ _); [|done].
    destruct (or_else _ _); [|done]. destruct (negb (py_eq_str _ _)); [done|].
    destruct (negb (encodable_update _)); [done|].
    destruct (update_one _ _ _); [|done]. by apply Hother.
Qed.

Lemma run_keeps_unique_emails_witness :
  length ((run Sample.sample_env
             (PostSignup (AuthRequest.make "new@example.com" "pw"))
             Sample.db_legacy).2 !!! "user") = 4%nat
  ∧ unique_emails
      ((run Sample.sample_env
          (PostSignup (AuthRequest.make "new@example.com" "pw"))
          Sample.db_legacy).2 !!! "user").
Proof.
  split; [reflexivity|].
  apply (run_keeps_unique_emails Sample.sample_env
           (PostSignup (AuthRequest.make "new@example.com" "pw"))
           Sample.db_legacy).
  intros i j u v em Hi Hj Hu Hv.
  change (Sample.db_legacy !!! "user")
    with [Sample.free_user; Sample.legacy_user; Sample.pro_user] in Hi, Hj.
  destruct i as [|[|[|i]]]; try discriminate Hi; injection Hi as <-;
    destruct j as [|[|[|j]]]; try discriminate Hj; injection Hj as <-;
    try reflexivity;
    vm_compute in Hu, Hv; rewrite <- Hv in Hu; discriminate Hu.
Defined.

(** ** The default gate *)

(** X17.  Without a matching override row the gate grants exactly this: to
    a user on plan free, or without a plan field, the types text, timer and
    countdown; to a user on plan pro the types youtube, goal, twitch_alert,
    minigame_trivia, minigame_poll and leaderboard; and nothing to anyone
    else, nor any other type such as image to anyone. *)
Theorem default_gate_table (user : document) (widget_type : string) (db : store) :
  override_row user widget_type db = None →
  (get user "plan" = None → user_plan user = VStr "free")
  ∧ (can_use_widget_type user widget_type db = true
     ↔ (user_plan user = VStr "free"
        ∧ widget_type ∈ ["text"; "timer"; "countdown"])
       ∨ (user_plan user = VStr "pro"
          ∧ widget_type ∈ ["youtube"; "goal"; "twitch_alert"; "minigame_trivia";
                            "minigame_poll"; "leaderboard"])).
Proof.
  intros Hrow. split; [by unfold user_plan; intros ->|].
  rewrite (can_use_widget_type_default _ _ _ Hrow). split.
  - intros (f & Hf & Hkey & -> & _)%default_allowed_true.
    unfold DEFAULT_FEATURES in Hf.
    repeat (apply elem_of_cons in Hf as [->|Hf]);
      try (by apply elem_of_nil in Hf);
      simpl in Hkey;
      match type of Hkey with
      | ?k = _ =>
          let t := eval vm_compute in (String.substring 7 (String.length k - 7) k) in
          change k with ("widget." +:+ t) in Hkey
      end;
      apply append_prefix_inj in Hkey; subst widget_type; simpl;
      first [ left; split; [reflexivity | set_solver]
            | right; split; [reflexivity | set_solver] ].
  - intros [[-> Hin]|[-> Hin]];
      repeat (apply elem_of_cons in Hin as [->|Hin]); try reflexivity;
      by apply elem_of_nil in Hin.
Qed.

(** A user document without a plan field is on the free plan. *)
Lemma default_gate_table_witness :
  can_use_widget_type (Document (StrId "u9") ∅) "timer" Sample.db_overlays = true.
Proof.
  apply (proj2 (default_gate_table (Document (StrId "u9") ∅) "timer"
                  Sample.db_overlays eq_refl)).
  left. split; [reflexivity|]. right. left.
Defined.

(** ** Who is let in *)

(** X18.  The auth dependency never returns a user without a token: the
    user it returns has an [auth_token] field, which is not null.  So a
    user stored before tokens were issued is let in by no header until
    [signin] has given it a token. *)
Theorem get_current_user_has_token (authorization : option string) (db : store)
    (user : document) :
  get_current_user authorization db = Ok user →
  user ∈ db !!! "user"
  ∧ get user "auth_token" ≠ None
  ∧ get user "auth_token" ≠ Some VNone.
Proof.
  unfold get_current_user. destruct authorization as [a|]; [|discriminate].
  destruct (negb _); [discriminate|].
  destruct (find_one _ _) as [u|] eqn:Hfind; [|discriminate].
  intros [= <-]. apply find_one_Some in Hfind as [Hin Hm].
  split; [done|]. rewrite matches_single in Hm.
  split; intros Hget; rewrite Hget in Hm; discriminate Hm.
Qed.

Lemma get_current_user_has_token_witness :
  get Sample.free_user "auth_token" ≠ None
  ∧ get Sample.free_user "auth_token" ≠ Some VNone.
Proof.
  apply (get_current_user_has_token (Some ("Bearer " +:+ Sample.token_a))
           Sample.db_legacy Sample.free_user).
  reflexivity.
Defined.

(** X19.  The routes for overlays and widgets, all but the public one, run
    their handler only for a caller the auth dependency returns: when it
    returns none, the request ends in 401 and the store is as it was. *)
Theorem run_requires_user (e : env) (r : request) (db : store)
    (authorization : option string) :
  authorization_of r = Some authorization →
  (∀ user, get_current_user authorization db ≠ Ok user) →
  ∃ detail, run e r db = (HTTPException 401 detail, db).
Proof.
  intros Hr Hnone.
  assert (∃ detail, get_current_user authorization db = HTTPException 401 detail)
    as [detail Hauth].
  { specialize (Hnone). unfold get_current_user in *.
    destruct authorization as [a|]; [|by eexists].
    destruct (negb _); [by eexists|].
    destruct (find_one _ _) as [u|]; [by destruct (Hnone u) | by eexists]. }
  exists detail.
  destruct r; simpl in Hr; try discriminate Hr; injection Hr as ->;
    simpl; unfold depends; by rewrite Hauth.
Qed.

Lemma run_requires_user_witness :
  ∃ detail,
    run Sample.sample_env (DeleteOverlay (Some "Bearer nobody") "o1")
      Sample.db_overlays
    = (HTTPException 401 detail, Sample.db_overlays).
Proof.
  apply (run_requires_user Sample.sample_env
           (DeleteOverlay (Some "Bearer nobody") "o1") Sample.db_overlays
           (Some "Bearer nobody") eq_refl).
  intros user. vm_compute. discriminate.
Defined.

(** ** Overlays stay *)

(** X20.  No request removes or changes a stored overlay: after any
    request every overlay is still stored, at its place and as it was.  A
    request to delete an overlay, whoever sends it, leaves the whole store
    as it was, so the overlay is served and listed as before. *)
Theorem run_keeps_overlays (e : env) (r : request) (db : store) :
  (∀ (i : nat) o, (db !!! "overlay") !! i = Some o →
                  ((run e r db).2 !!! "overlay") !! i = Some o)
  ∧ (∀ authorization overlay_id,
       r = DeleteOverlay authorization overlay_id → (run e r db).2 = db).
Proof.
  split.
  - intros i o Ho.
    assert (Hother : ∀ (name : string) (c : collection), name ≠ "overlay" →
              (<[name := c]> db !!! "overlay") !! i = Some o).
    { intros name c Hne. by rewrite lookup_total_insert_ne. }
    destruct r; simpl; try done.
    + unfold signup. destruct (find_one _ _); [done|]. by apply Hother.
    + unfold signin. destruct (find_one _ _); [|done].
      destruct (negb _); [|done]. destruct (update_one _ _ _); [|done].
      by apply Hother.
    + unfold depends. by destruct (get_current_user _ _).
    + unfold depends. destruct (get_current_user _ _); [|done|done].
      rewrite create_overlay_store. simpl. rewrite lookup_total_insert_eq.
      by apply lookup_app_l_Some.
    + unfold depends. by destruct (get_current_user _ _).
    + unfold depends. by destruct (get_current_user _ _).
    + unfold depends. destruct (get_current_user _ _); [|done|done].
      unfold create_widget. destruct (negb _); [done|].
      destruct (Widget_of_payload payload); [|done]. by apply Hother.
    + unfold depends. destruct (get_current_user _ _); [|done|done].
      unfold update_widget. destruct (or_else _ _); [|done].
      destruct (or_else _ _); [|done]. destruct (negb (py_eq_str _ _)); [done|].
      destruct (negb (encodable_update _)); [done|].
      destruct (update_one _ _ _); [|done]. by apply Hother.
  - intros authorization overlay_id ->. simpl. unfold depends.
    by destruct (get_current_user _ _).
Qed.

(** The sample overlay is served after its owner asked for its deletion. *)
Lemma run_keeps_overlays_witness :
  get_overlay_public "o1" "s3cr3t"
    (run Sample.sample_env
       (DeleteOverlay (Some ("Bearer " +:+ Sample.token_a)) "o1")
       Sample.db_overlays).2
  = get_overlay_public "o1" "s3cr3t" Sample.db_overlays.
Proof.
  by rewrite (proj2 (run_keeps_overlays Sample.sample_env
                       (DeleteOverlay (Some ("Bearer " +:+ Sample.token_a)) "o1")
                       Sample.db_overlays)
                (Some ("Bearer " +:+ Sample.token_a)) "o1" eq_refl).
Defined.
